(** * Document-aware comment analysis: a shallow embedding of
      [document_analyzer.py] (class [DocumentAwareAnalyzer])

    Conventions of the embedding.

    - Python [str] values are [string]s.  Texts are taken to be ASCII:
      whitespace, digits, letters, [lower] and case-insensitive matching are
      Python's on code points below 128.
    - Python [float] values are exact rationals ([Q]); rounding of binary
      floating point is not modelled.  Equality of numbers is [==].
    - A Python function that may raise returns an [option]; [None] is the
      raised exception.
    - [dict]s with a fixed set of keys are records; the [classifications]
      dict, whose iteration order matters, is an association list. *)

From Stdlib Require Import List String Ascii Bool Arith Lia.
From Stdlib Require Import ZArith QArith Qminmax Lqa DecimalString.
Import ListNotations.

Local Open Scope string_scope.
Local Open Scope list_scope.
Local Open Scope nat_scope.

(* ================================================================== *)
(** ** Python string primitives *)

Module Py.

Definition code (c : ascii) : nat := nat_of_ascii c.

(** [str.isspace] on an ASCII character: TAB..CR, FS..US and the space. *)
Definition isspace (c : ascii) : bool :=
  ((9 <=? code c) && (code c <=? 13)) || ((28 <=? code c) && (code c <=? 32)).

(** [\d] on an ASCII character. *)
Definition isdigit (c : ascii) : bool :=
  (48 <=? code c) && (code c <=? 57).

Definition isupper (c : ascii) : bool :=
  (65 <=? code c) && (code c <=? 90).

Definition islower (c : ascii) : bool :=
  (97 <=? code c) && (code c <=? 122).

Definition lower_char (c : ascii) : ascii :=
  if isupper c then ascii_of_nat (code c + 32) else c.

(** [s.lower()] *)
Fixpoint lower (s : string) : string :=
  match s with
  | EmptyString => EmptyString
  | String c tl => String (lower_char c) (lower tl)
  end.

(** [needle in hay] *)
Fixpoint contains (needle hay : string) : bool :=
  String.prefix needle hay ||
  match hay with
  | EmptyString => false
  | String _ tl => contains needle tl
  end.

Fixpoint lstrip (s : string) : string :=
  match s with
  | EmptyString => EmptyString
  | String c tl => if isspace c then lstrip tl else s
  end.

Fixpoint rstrip (s : string) : string :=
  match s with
  | EmptyString => EmptyString
  | String c tl =>
      match rstrip tl with
      | EmptyString => if isspace c then EmptyString else String c EmptyString
      | tl' => String c tl'
      end
  end.

(** [s.strip()] *)
Definition strip (s : string) : string := rstrip (lstrip s).

(** [s.split()]: the maximal runs of non-whitespace characters.
    [cur] is the word being read, reversed. *)
Fixpoint split_from (cur : list ascii) (s : string) : list string :=
  let flush :=
    match cur with
    | [] => []
    | _ => [string_of_list_ascii (rev cur)]
    end in
  match s with
  | EmptyString => flush
  | String c tl =>
      if isspace c then flush ++ split_from [] tl
      else split_from (c :: cur) tl
  end.

Definition split (s : string) : list string := split_from [] s.

(** [sep.join(parts)] *)
Definition join (sep : string) (parts : list string) : string :=
  String.concat sep parts.

(** [len(s)] *)
Definition len (s : string) : nat := String.length s.

(** [str(n)] for a non-negative [int]. *)
Definition str_of_nat (n : nat) : string :=
  NilZero.string_of_uint (Nat.to_uint n).

(** [x in xs] for a list of strings. *)
Definition mem (x : string) (xs : list string) : bool :=
  existsb (String.eqb x) xs.

(** True when [s] has no character that is not whitespace. *)
Fixpoint blank (s : string) : bool :=
  match s with
  | EmptyString => true
  | String c tl => isspace c && blank tl
  end.

End Py.

(* ================================================================== *)
(** ** Numbers *)

Module Num.

Local Open Scope Q_scope.

(** [a < b] and [a > b] on floats *)
Definition ltb (a b : Q) : bool := negb (Qle_bool b a).
Definition gtb (a b : Q) : bool := ltb b a.

(** [min(a, b)]: the first argument unless the second is smaller. *)
Definition min (a b : Q) : Q := if ltb b a then b else a.

(** [a / b]; raises [ZeroDivisionError] when [b] is zero. *)
Definition truediv (a b : Q) : option Q :=
  if Qeq_bool b 0 then None else Some (a / b).

Definition of_nat (n : nat) : Q := inject_Z (Z.of_nat n).

End Num.

(* ================================================================== *)
(** ** Regular expressions: the fragment of Python's [re] used by the source

    A backtracking matcher in continuation-passing style: alternatives are
    tried left to right, a greedy repetition tries one more iteration before
    it tries to stop, a lazy one the other way round, and a lookahead is
    matched once and never re-entered. *)

Module Re.

(** One item of a character set, or a single-character pattern. *)
Inductive atom : Type :=
| Lit (c : ascii)            (* a literal character *)
| Dot                        (* .  *)
| Digit                      (* \d *)
| Space                      (* \s *)
| Range (lo hi : ascii).     (* lo-hi inside [...] *)

Inductive regex : Type :=
| Eps
| One (items : list atom)    (* one character matching any of the items *)
| Cat (r1 r2 : regex)
| Alt (r1 r2 : regex)        (* r1|r2 *)
| Rep (greedy : bool) (r : regex)   (* r* and r*? *)
| Grp (n : nat) (r : regex)  (* the n-th capturing group *)
| Ahead (r : regex)          (* (?=r) *)
| Eos.                       (* $ without MULTILINE *)

Record flags := { ignorecase : bool; dotall : bool }.

Definition no_flags := {| ignorecase := false; dotall := false |}.

Definition upper_char (c : ascii) : ascii :=
  if Py.islower c then ascii_of_nat (Py.code c - 32) else c.

Definition in_range (lo hi c : ascii) : bool :=
  (Py.code lo <=? Py.code c) && (Py.code c <=? Py.code hi).

Definition atom_matches (f : flags) (a : atom) (c : ascii) : bool :=
  match a with
  | Lit x =>
      if ignorecase f
      then Ascii.eqb (Py.lower_char c) (Py.lower_char x)
      else Ascii.eqb c x
  | Dot => dotall f || negb (Ascii.eqb c "010"%char)
  | Digit => Py.isdigit c
  | Space => Py.isspace c
  | Range lo hi =>
      in_range lo hi c ||
      (ignorecase f &&
         (in_range lo hi (Py.lower_char c) || in_range lo hi (upper_char c)))
  end.

(** Position in the subject, the text from there on, and the spans of the
    groups matched so far (latest first). *)
Record mstate := {
  pos : nat;
  rest : string;
  caps : list (nat * (nat * nat))
}.

Definition advance (st : mstate) (tl : string) : mstate :=
  {| pos := S (pos st); rest := tl; caps := caps st |}.

Definition capture (n start : nat) (st : mstate) : mstate :=
  {| pos := pos st; rest := rest st; caps := (n, (start, pos st)) :: caps st |}.

(** The loop of a repetition whose body is matched by [body].  An
    iteration has to move forward in the subject; [fuel] bounds the
    number of iterations by the number of characters left. *)
Fixpoint iterate (body : mstate -> (mstate -> option mstate) -> option mstate)
         (greedy : bool) (k : mstate -> option mstate)
         (fuel : nat) (st : mstate) {struct fuel} : option mstate :=
  match fuel with
  | 0 => k st
  | S fuel' =>
      let once_more (_ : unit) :=
        body st (fun st' =>
                   if pos st <? pos st' then iterate body greedy k fuel' st' else None) in
      if greedy
      then match once_more tt with
           | Some x => Some x
           | None => k st
           end
      else match k st with
           | Some x => Some x
           | None => once_more tt
           end
  end.

Fixpoint run (f : flags) (r : regex) (st : mstate)
         (k : mstate -> option mstate) {struct r} : option mstate :=
  match r with
  | Eps => k st
  | One items =>
      match rest st with
      | String c tl =>
          if existsb (fun a => atom_matches f a c) items
          then k (advance st tl) else None
      | EmptyString => None
      end
  | Cat r1 r2 => run f r1 st (fun st' => run f r2 st' k)
  | Alt r1 r2 =>
      match run f r1 st k with
      | Some x => Some x
      | None => run f r2 st k
      end
  | Rep greedy r' => iterate (run f r') greedy k (String.length (rest st)) st
  | Grp n r' => run f r' st (fun st' => k (capture n (pos st) st'))
  | Ahead r' =>
      match run f r' st Some with
      | Some st' => k {| pos := pos st; rest := rest st; caps := caps st' |}
      | None => None
      end
  | Eos =>
      match rest st with
      | EmptyString => k st
      | String c EmptyString => if Ascii.eqb c "010"%char then k st else None
      | _ => None
      end
  end.

(** Derived forms. *)
Definition plus (r : regex) : regex := Cat r (Rep true r).     (* r+ *)
Definition star (r : regex) : regex := Rep true r.             (* r* *)
Definition lazy_star (r : regex) : regex := Rep false r.       (* r*? *)
Definition opt (r : regex) : regex := Alt r Eps.               (* r? *)

Fixpoint lit (s : string) : regex :=
  match s with
  | EmptyString => Eps
  | String c EmptyString => One [Lit c]
  | String c tl => Cat (One [Lit c]) (lit tl)
  end.

Fixpoint cats (rs : list regex) : regex :=
  match rs with
  | [] => Eps
  | [r] => r
  | r :: tl => Cat r (cats tl)
  end.

Fixpoint alts (rs : list regex) : regex :=
  match rs with
  | [] => Eps
  | [r] => r
  | r :: tl => Alt r (alts tl)
  end.

(** Number of capturing groups of a pattern: [len(match.groups())]. *)
Fixpoint ngroups (r : regex) : nat :=
  match r with
  | Cat r1 r2 | Alt r1 r2 => ngroups r1 + ngroups r2
  | Rep _ r' | Ahead r' => ngroups r'
  | Grp _ r' => S (ngroups r')
  | _ => 0
  end.

(** A match object: its span and the spans of its groups. *)
Record match_ := { m_start : nat; m_end : nat; m_caps : list (nat * (nat * nat)) }.

(** The leftmost match that starts at position [p] or later; [s] is the
    subject from [p] on. *)
Fixpoint search_from (f : flags) (r : regex) (p : nat) (s : string)
  : option (match_ * string) :=
  match run f r {| pos := p; rest := s; caps := [] |} Some with
  | Some st => Some ({| m_start := p; m_end := pos st; m_caps := caps st |}, rest st)
  | None =>
      match s with
      | EmptyString => None
      | String _ tl => search_from f r (S p) tl
      end
  end.

(** Successive non-overlapping matches, left to right.  After an empty
    match the scan resumes one character further. *)
Fixpoint finditer_from (fuel : nat) (f : flags) (r : regex) (p : nat) (s : string)
  : list match_ :=
  match fuel with
  | 0 => []
  | S fuel' =>
      match search_from f r p s with
      | None => []
      | Some (m, s') =>
          m :: (if m_start m <? m_end m
                then finditer_from fuel' f r (m_end m) s'
                else match s' with
                     | EmptyString => []
                     | String _ tl => finditer_from fuel' f r (S (m_end m)) tl
                     end)
      end
  end.

(** [re.finditer(pattern, text, flags)] *)
Definition finditer (f : flags) (r : regex) (text : string) : list match_ :=
  finditer_from (S (String.length text)) f r 0 text.

Fixpoint lookup (n : nat) (cs : list (nat * (nat * nat))) : option (nat * nat) :=
  match cs with
  | [] => None
  | (i, span) :: tl => if i =? n then Some span else lookup n tl
  end.

(** [match.group(n)]; [None] (Python's [None]) for a group that took no
    part in the match. *)
Definition group (text : string) (m : match_) (n : nat) : option string :=
  match lookup n (m_caps m) with
  | Some (a, b) => Some (String.substring a (b - a) text)
  | None => None
  end.

(** [re.findall(pattern, text)] for a pattern with exactly one group:
    the text of that group for every match; a group that took no part
    gives the empty string. *)
Definition findall1 (f : flags) (r : regex) (text : string) : list string :=
  map (fun m => match group text m 1 with Some g => g | None => EmptyString end)
      (finditer f r text).

End Re.

(* ================================================================== *)
(** ** Intent classification: [classify_comment_type] *)

Module Intent.

(** The [classifications] dict, in insertion order. *)
Definition classifications : list (string * list string) :=
  [ ("Support",
     [ "support"; "agree"; "approve"; "endorse"; "favor"; "good"; "excellent";
       "beneficial"; "positive"; "welcome"; "appreciate"; "commend"; "excellent";
       "great"; "wonderful"; "fantastic"; "outstanding"; "praise"; "laud";
       "commendable"; "admirable"; "valuable"; "useful"; "helpful" ]);
    ("Opposition",
     [ "oppose"; "disagree"; "against"; "object"; "concern"; "problem"; "issue";
       "negative"; "harmful"; "damaging"; "unacceptable"; "reject"; "criticize";
       "criticism"; "flawed"; "inadequate"; "insufficient"; "worried"; "worrisome";
       "problematic"; "troubling"; "serious concern"; "major issue" ]);
    ("Suggestion",
     [ "suggest"; "recommend"; "propose"; "recommendation"; "improvement";
       "modify"; "change"; "amend"; "revise"; "clarify"; "should"; "could";
       "might"; "consider"; "alternative"; "better"; "enhance"; "strengthen";
       "improve"; "refine"; "adjust"; "update" ]);
    ("Question",
     [ "question"; "ask"; "wonder"; "unclear"; "confused"; "explain";
       "how"; "what"; "why"; "when"; "where"; "?"; "unclear"; "confusion";
       "understand"; "comprehension"; "clarification needed"; "please explain" ]);
    ("Clarification",
     [ "clarify"; "explain"; "define"; "specify"; "detail"; "elaborate";
       "understand"; "comprehension"; "meaning"; "interpretation"; "scope";
       "extent"; "coverage"; "application"; "implementation" ]);
    ("Implementation",
     [ "implement"; "execute"; "apply"; "enforce"; "timeline"; "schedule";
       "process"; "procedure"; "mechanism"; "rollout"; "deployment"; "phasing";
       "stages"; "steps"; "approach"; "methodology"; "framework" ]) ].

(** [sum(1 for keyword in keywords if keyword in comment_lower)] *)
Definition keyword_score (keywords : list string) (comment_lower : string) : nat :=
  list_sum (map (fun _ => 1)
                (filter (fun keyword => Py.contains keyword comment_lower) keywords)).

(** The loop filling [category_scores], one entry per category, in order. *)
Definition category_scores (comment_lower : string) : list (string * nat) :=
  map (fun entry => (fst entry, keyword_score (snd entry) comment_lower))
      classifications.

(** [max(d, key=d.get)] scanning the entries from [best] on: a later entry
    replaces the current best only when its value is strictly larger. *)
Fixpoint max_from (best : string * nat) (rest : list (string * nat)) : string * nat :=
  match rest with
  | [] => best
  | e :: tl => if snd best <? snd e then max_from e tl else max_from best tl
  end.

(** [max(d, key=d.get)]; raises [ValueError] on an empty dict. *)
Definition max_by_value (d : list (string * nat)) : option (string * nat) :=
  match d with
  | [] => None
  | e :: tl => Some (max_from e tl)
  end.

(** [sum(d.values())] *)
Definition sum_values (d : list (string * nat)) : nat := list_sum (map snd d).

Record result := {
  primary_type : string;
  confidence : Q;
  all_scores : list (string * nat);
  is_constructive : bool
}.

Definition classify_comment_type (comment : string) : option result :=
  let comment_lower := Py.lower comment in
  let scores := category_scores comment_lower in
  match max_by_value scores with
  | None => None
  | Some (primary_category, primary_score) =>
      let total_keywords := sum_values scores in
      match (if 0 <? total_keywords
             then Num.truediv (Num.of_nat primary_score) (Num.of_nat total_keywords)
             else Some 0%Q) with
      | None => None
      | Some conf =>
          Some {| primary_type := primary_category;
                  confidence := conf;
                  all_scores := scores;
                  is_constructive :=
                    Py.mem primary_category ["Suggestion"; "Question"; "Clarification"] |}
      end
  end.

End Intent.

(* ================================================================== *)
(** ** Relevance results *)

Module Relevance.

Record section := {
  id : string;
  title : string;
  content : string;
  word_count : nat
}.

(** The dict returned by [analyze_comment_relevance]; [all_similarities]
    is absent ([None]) in the result returned when no document is loaded. *)
Record result := {
  relevance_score : Q;
  most_relevant_section : option section;
  relevance_category : string;
  all_similarities : option (list Q)
}.

End Relevance.

(* ================================================================== *)
(** ** External collaborators

    NLTK's sentence tokenizer and scikit-learn's TF-IDF vectorizer are not
    part of the repository.  They enter the embedding as interfaces; the
    laws are the properties of the libraries the analyzer relies on. *)

(** [nltk.tokenize.sent_tokenize].  A text without any non-whitespace
    character has no sentence; any other text has at least one. *)
Class SentTokenizer : Type := {
  sent_tokenize : string -> list string;
  sent_tokenize_blank :
    forall text, Py.blank text = true -> sent_tokenize text = [];
  sent_tokenize_nonblank :
    forall text, Py.blank text = false -> sent_tokenize text <> []
}.

(** [TfidfVectorizer] and [cosine_similarity].  [vectorizer] is the state of
    the vectorizer object (its fitted vocabulary and weights), [matrix] a
    document-term matrix.  [fit_transform] refits the vectorizer; it can
    raise (for instance on an empty vocabulary), in which case no matrix is
    returned.  [similarity_row a b] is [cosine_similarity(a, b)[0]]. *)
Class Tfidf : Type := {
  vectorizer : Type;
  matrix : Type;
  new_vectorizer : vectorizer;
  fit_transform : vectorizer -> list string -> vectorizer * option matrix;
  transform : vectorizer -> list string -> option matrix;
  similarity_row : matrix -> matrix -> option (list Q);
  fit_transform_ok :
    forall v texts v' m,
      fit_transform v texts = (v', Some m) ->
      forall comment,
      exists e sims,
        transform v' [comment] = Some e /\
        similarity_row e m = Some sims /\
        List.length sims = List.length texts
}.

(* ================================================================== *)
(** ** Section extraction: [_extract_document_sections] *)

Module Sections.

Import Re Relevance.

Definition digits := plus (One [Digit]).                        (* \d+ *)
Definition spaces0 := star (One [Space]).                       (* \s* *)
Definition spaces1 := plus (One [Space]).                       (* \s+ *)
Definition number := Cat digits (star (Cat (One [Lit "."]) digits)).  (* \d+(?:\.\d+)* *)
Definition colon_or_dot := One [Lit ":"; Lit "."].               (* [:\.] *)
Definition body := Grp 2 (lazy_star (One [Dot])).                (* (.*?) *)
Definition heading_word :=                                       (* (?:Section|...|Part) *)
  alts [lit "Section"; lit "Clause"; lit "Article"; lit "Chapter"; lit "Part"].
Definition capitals :=                                           (* [A-Z][A-Z\s]+ *)
  Cat (One [Range "A" "Z"]) (plus (One [Range "A" "Z"; Space])).

Definition section_patterns : list regex :=
  [ (* Pattern 1: Section/Clause/Article with numbers *)
    cats [ heading_word; spaces1; Grp 1 number; opt colon_or_dot; spaces0; body;
           Ahead (Alt (cats [heading_word; spaces1; digits]) Eos) ];
    (* Pattern 2: Numbered sections *)
    cats [ Grp 1 number; colon_or_dot; spaces0; body;
           Ahead (Alt (Cat number colon_or_dot) Eos) ];
    (* Pattern 3: Amendment patterns *)
    cats [ lit "Amendment of section "; Grp 1 digits; opt colon_or_dot; spaces0; body;
           Ahead (Alt (Cat (lit "Amendment of section ") digits) Eos) ];
    (* Pattern 4: Subsection patterns *)
    cats [ lit "In section "; Grp 1 digits; opt colon_or_dot; spaces0; body;
           Ahead (Alt (Cat (lit "In section ") digits) Eos) ];
    (* Pattern 5: Capitalized headings *)
    cats [ Grp 1 capitals; colon_or_dot; spaces0; body;
           Ahead (Alt (Cat capitals colon_or_dot) Eos) ] ].

(** [re.DOTALL | re.IGNORECASE] *)
Definition extract_flags := {| ignorecase := true; dotall := true |}.

(** The body of the inner loop for one match.  [None]: [.strip()] is
    called on the [None] of a group that took no part, and raises. *)
Definition section_of_match (pattern : regex) (document_text : string) (m : match_)
  : option (list section) :=
  if 2 <=? ngroups pattern then
    match group document_text m 1, group document_text m 2 with
    | Some g1, Some g2 =>
        let section_id := Py.strip g1 in
        let section_content := Py.strip g2 in
        if 50 <? Py.len section_content
        then Some [ {| id := section_id;
                       title := "Section " ++ section_id;
                       content := section_content;
                       word_count := List.length (Py.split section_content) |} ]
        else Some []
    | _, _ => None
    end
  else Some [].

(** Runs [step] over [xs] and appends the results, stopping at the first
    exception. *)
Fixpoint collect {A B} (step : A -> option (list B)) (xs : list A) : option (list B) :=
  match xs with
  | [] => Some []
  | x :: tl =>
      match step x with
      | None => None
      | Some ys =>
          match collect step tl with
          | None => None
          | Some zs => Some (ys ++ zs)
          end
      end
  end.

(** The two nested [for] loops over the patterns and their matches. *)
Definition pattern_sections (document_text : string) : option (list section) :=
  collect (fun pattern =>
             collect (section_of_match pattern document_text)
                     (finditer extract_flags pattern document_text))
          section_patterns.

(** [range(0, stop, step)] for a positive [step]. *)
Definition range_step (stop step : nat) : list nat :=
  map (fun j => j * step) (seq 0 ((stop + step - 1) / step)).

(** [xs[i:j]] *)
Definition slice {A} (xs : list A) (i j : nat) : list A :=
  firstn (j - i) (skipn i xs).

Definition part_section (n : nat) (chunk : list string) : section :=
  {| id := "Part_" ++ Py.str_of_nat n;
     title := "Part " ++ Py.str_of_nat n;
     content := Py.join " " chunk;
     word_count := List.length (Py.split (Py.join " " chunk)) |}.

(** The artificial sections built when no pattern gave a section. *)
Definition artificial_sections (sentences : list string) : list section :=
  let chunk_size := Nat.max 5 (List.length sentences / 10) in
  flat_map (fun i =>
              let chunk := slice sentences i (i + chunk_size) in
              if 0 <? List.length chunk
              then [part_section (i / chunk_size + 1) chunk]
              else [])
           (range_step (List.length sentences) chunk_size).

Definition _extract_document_sections `{SentTokenizer} (document_text : string)
  : option (list section) :=
  match pattern_sections document_text with
  | None => None
  | Some [] => Some (artificial_sections (sent_tokenize document_text))
  | Some sections => Some sections
  end.

End Sections.

(* ================================================================== *)
(** ** The analyzer object: [set_main_document], [analyze_comment_relevance] *)

Module Analyzer.

Import Relevance.
Local Open Scope Q_scope.

Section WithLibraries.

Context `{SentTokenizer} `{Tfidf}.

(** The attributes of a [DocumentAwareAnalyzer] that the methods below
    read or write.  [document_title] does not exist before the first
    [set_main_document]. *)
Record state := {
  main_document : option string;
  document_title : option string;
  document_sections : option (list section);
  document_embeddings : option matrix;
  tfidf_vectorizer : vectorizer
}.

(** [__init__] *)
Definition init : state :=
  {| main_document := None;
     document_title := None;
     document_sections := None;
     document_embeddings := None;
     tfidf_vectorizer := new_vectorizer |}.

Inductive outcome := Returned | Raised.

(** [set_main_document]: the object as the call leaves it, and whether
    the call returned or an exception left it early. *)
Definition set_main_document (self : state) (document_text title_ : string)
  : state * outcome :=
  let self1 :=
    {| main_document := Some document_text;
       document_title := Some title_;
       document_sections := document_sections self;
       document_embeddings := document_embeddings self;
       tfidf_vectorizer := tfidf_vectorizer self |} in
  match Sections._extract_document_sections document_text with
  | None => (self1, Raised)
  | Some sections =>
      let self2 :=
        {| main_document := main_document self1;
           document_title := document_title self1;
           document_sections := Some sections;
           document_embeddings := document_embeddings self1;
           tfidf_vectorizer := tfidf_vectorizer self1 |} in
      match sections with
      | [] => (self2, Returned)
      | _ =>
          let section_texts := map content sections in
          match fit_transform (tfidf_vectorizer self2) section_texts with
          | (v, Some m) =>
              ({| main_document := main_document self2;
                  document_title := document_title self2;
                  document_sections := document_sections self2;
                  document_embeddings := Some m;
                  tfidf_vectorizer := v |}, Returned)
          | (v, None) =>
              ({| main_document := main_document self2;
                  document_title := document_title self2;
                  document_sections := document_sections self2;
                  document_embeddings := document_embeddings self2;
                  tfidf_vectorizer := v |}, Raised)
          end
      end
  end.

Definition legal_keywords : list string :=
  [ "section"; "clause"; "article"; "amendment"; "act"; "law"; "regulation";
    "provision"; "requirement"; "compliance"; "penalty"; "fine"; "director";
    "company"; "board"; "shareholder"; "csr"; "remuneration"; "disqualification" ]%string.

(** [r'section\s+(\d+)'] *)
Definition section_number : Re.regex :=
  Re.cats [ Re.lit "section"; Re.plus (Re.One [Re.Space]);
            Re.Grp 1 (Re.plus (Re.One [Re.Digit])) ].

(** The boost computed from the lower-cased comment. *)
Definition keyword_boost (comment_lower : string) : Q :=
  let keyword_boost :=
    fold_left (fun boost keyword =>
                 if Py.contains keyword comment_lower then boost + 0.1 else boost)
              legal_keywords 0 in
  let section_matches := Re.findall1 Re.no_flags section_number comment_lower in
  match section_matches with
  | [] => keyword_boost
  | _ => keyword_boost + 0.2 * Num.of_nat (List.length section_matches)
  end.

(** [np.argmax] scanning on from a current best. *)
Fixpoint argmax_from (best_idx : nat) (best : Q) (idx : nat) (xs : list Q) : nat :=
  match xs with
  | [] => best_idx
  | x :: tl =>
      if Num.ltb best x
      then argmax_from idx x (S idx) tl
      else argmax_from best_idx best (S idx) tl
  end.

(** [np.argmax]: the first index of a largest entry; raises on an empty
    array. *)
Definition argmax (xs : list Q) : option nat :=
  match xs with
  | [] => None
  | x :: tl => Some (argmax_from 0 x 1 tl)
  end.

Definition categorize (max_similarity : Q) : string :=
  if Num.gtb max_similarity 0.7 then "Highly Relevant"
  else if Num.gtb max_similarity 0.5 then "Moderately Relevant"
  else if Num.gtb max_similarity 0.3 then "Somewhat Relevant"
  else "Low Relevance".

Definition unknown_result : result :=
  {| relevance_score := 0;
     most_relevant_section := None;
     relevance_category := "Unknown";
     all_similarities := None |}.

Definition analyze_comment_relevance (self : state) (comment : string)
  : option result :=
  match document_embeddings self, document_sections self with
  | None, _ | _, None | _, Some [] => Some unknown_result
  | Some embeddings, Some sections =>
      match transform (tfidf_vectorizer self) [comment] with
      | None => None
      | Some comment_embedding =>
          match similarity_row comment_embedding embeddings with
          | None => None
          | Some similarities =>
              let comment_lower := Py.lower comment in
              let boost := keyword_boost comment_lower in
              let similarities := map (fun s => s + boost) similarities in
              match argmax similarities with
              | None => None
              | Some max_similarity_idx =>
                  match nth_error similarities max_similarity_idx,
                        nth_error sections max_similarity_idx with
                  | Some max_similarity, Some most_relevant =>
                      Some {| relevance_score := max_similarity;
                              most_relevant_section := Some most_relevant;
                              relevance_category := categorize max_similarity;
                              all_similarities := Some similarities |}
                  | _, _ => None
                  end
              end
          end
      end
  end.

End WithLibraries.

End Analyzer.

(* ================================================================== *)
(** ** Context-aware adjustment: [_adjust_sentiment_for_context] *)

Module Adjust.

Local Open Scope Q_scope.

(** The sentiment pipeline's output dict. *)
Record sentiment := { label : string; score : Q }.

Record adjusted := {
  adj_label : string;
  adj_score : Q;
  original_score : Q;
  adjustment_factor : Q
}.

Definition _adjust_sentiment_for_context
    (base_sentiment : sentiment) (relevance : Relevance.result)
    (comment_type : Intent.result) : option adjusted :=
  let label := label base_sentiment in
  let confidence := score base_sentiment in
  let relevance_factor := Relevance.relevance_score relevance in
  let adjusted_confidence := confidence * (0.5 + 0.5 * relevance_factor) in
  let adjusted_confidence :=
    if (Intent.primary_type comment_type =? "Support")%string
       && (label =? "POSITIVE")%string
    then Num.min 1 (adjusted_confidence * 1.2)
    else if (Intent.primary_type comment_type =? "Opposition")%string
            && (label =? "NEGATIVE")%string
    then Num.min 1 (adjusted_confidence * 1.2)
    else if Py.mem (Intent.primary_type comment_type) ["Question"; "Clarification"]
    then (if negb (label =? "NEUTRAL")%string
          then adjusted_confidence * 0.8
          else adjusted_confidence)
    else adjusted_confidence in
  match (if Num.gtb confidence 0
         then Num.truediv adjusted_confidence confidence
         else Some 1) with
  | None => None
  | Some factor =>
      Some {| adj_label := label;
              adj_score := adjusted_confidence;
              original_score := confidence;
              adjustment_factor := factor |}
  end.

End Adjust.

(* ================================================================== *)
(** ** The whole analysis of a comment: [analyze_document_aware_sentiment],
       [analyze_batch_document_aware], [generate_document_summary] *)

(** The Hugging Face sentiment pipeline is external: [sentiment_pipeline
    text] is the first dict of the list it returns, [None] when the call
    raises. *)
Class SentimentModel : Type := {
  sentiment_pipeline : string -> option Adjust.sentiment
}.

Module Pipeline.

Import Relevance Analyzer.

(** The chain of [if label in [...]] that normalizes the label names, in
    [analyze_document_aware_sentiment] and again in [analyze_sentiment]. *)
Definition normalize_label (label : string) : string :=
  if Py.mem label ["LABEL_2"; "POSITIVE"] then "POSITIVE"
  else if Py.mem label ["LABEL_0"; "NEGATIVE"] then "NEGATIVE"
  else if Py.mem label ["LABEL_1"; "NEUTRAL"] then "NEUTRAL"
  else label.

Record document_context := {
  is_relevant : bool;
  target_section : option string;
  constructive_feedback : bool
}.

(** The dict returned by [analyze_document_aware_sentiment]. *)
Record analysis := {
  base_sentiment : Adjust.sentiment;
  adjusted_sentiment : Adjust.adjusted;
  relevance : Relevance.result;
  comment_type : Intent.result;
  context : document_context
}.

(** The same dict after the batch loop has added its two keys. *)
Record batch_result := {
  result : analysis;
  comment_id : nat;
  comment : string
}.

Record relevance_stats := {
  total_comments : nat;
  relevant_comments : nat;
  highly_relevant : nat;
  moderately_relevant : nat
}.

(** The three shapes of dict that [generate_document_summary] returns. *)
Inductive summary : Type :=
| NoResults                                   (* {} *)
| NoRelevant (text : string) (total relevant : nat)
| Full (text : string) (stats : relevance_stats)
       (sentiment_distribution comment_types : list (string * nat))
       (section_feedback : list (string * list batch_result)).

(** [Counter]: one more occurrence of [key]; a new key goes last. *)
Fixpoint count_one (key : string) (counts : list (string * nat)) : list (string * nat) :=
  match counts with
  | [] => [(key, 1)]
  | (k, n) :: tl =>
      if (k =? key)%string then (k, S n) :: tl else (k, n) :: count_one key tl
  end.

(** [Counter(keys)] as the dict it is, in insertion order. *)
Definition Counter (keys : list string) : list (string * nat) :=
  fold_left (fun counts key => count_one key counts) keys [].

(** [groups[key].append(item)] on a [defaultdict(list)]. *)
Fixpoint append_to {A} (key : string) (item : A) (groups : list (string * list A))
  : list (string * list A) :=
  match groups with
  | [] => [(key, [item])]
  | (k, items) :: tl =>
      if (k =? key)%string then (k, items ++ [item]) :: tl
      else (k, items) :: append_to key item tl
  end.

Definition score_of (r : batch_result) : Q :=
  relevance_score (relevance (result r)).

(** The loop that fills [section_feedback]. *)
Definition group_by_section (results : list batch_result)
  : list (string * list batch_result) :=
  fold_left (fun groups r =>
               match most_relevant_section (relevance (result r)) with
               | Some section => append_to (title section) r groups
               | None => groups
               end)
            results [].

Section WithLibraries.

Context `{SentTokenizer} `{Tfidf} `{SentimentModel}.

Definition analyze_document_aware_sentiment (self : state) (comment_ : string)
  : option analysis :=
  match sentiment_pipeline comment_ with
  | None => None
  | Some sentiment_result =>
      let label := Adjust.label sentiment_result in
      let normalized_label := normalize_label label in
      let base :=
        {| Adjust.label := normalized_label;
           Adjust.score := Adjust.score sentiment_result |} in
      match analyze_comment_relevance self comment_ with
      | None => None
      | Some relevance_ =>
          match Intent.classify_comment_type comment_ with
          | None => None
          | Some type_ =>
              match Adjust._adjust_sentiment_for_context base relevance_ type_ with
              | None => None
              | Some adjusted =>
                  Some {| base_sentiment := base;
                          adjusted_sentiment := adjusted;
                          relevance := relevance_;
                          comment_type := type_;
                          context :=
                            {| is_relevant :=
                                 Num.gtb (relevance_score relevance_) 0.3;
                               target_section :=
                                 match most_relevant_section relevance_ with
                                 | Some section => Some (title section)
                                 | None => None
                                 end;
                               constructive_feedback :=
                                 Intent.is_constructive type_ |} |}
              end
          end
      end
  end.

(** The loop of [analyze_batch_document_aware] from index [i] on; the first
    comment whose analysis raises ends the batch. *)
Fixpoint batch_from (self : state) (i : nat) (comments : list string)
  : option (list batch_result) :=
  match comments with
  | [] => Some []
  | comment_ :: rest =>
      match analyze_document_aware_sentiment self comment_ with
      | None => None
      | Some r =>
          match batch_from self (S i) rest with
          | None => None
          | Some results =>
              Some ({| result := r; comment_id := i + 1; comment := comment_ |}
                    :: results)
          end
      end
  end.

Definition analyze_batch_document_aware (self : state) (comments : list string)
  : option (list batch_result) :=
  batch_from self 0 comments.

(** The text joined from [summary_parts].  Its number formatting
    ([:.1f]) and the [repr] of the dicts and of the list are Python's and
    are not interpreted. *)
Variable summary_text :
  nat -> string -> nat -> list (string * nat) -> list (string * nat) ->
  list string -> string.

Definition generate_document_summary (self : state) (comments_results : list batch_result)
  : option summary :=
  match comments_results with
  | [] => Some NoResults
  | _ =>
      let highly := filter (fun r => Num.gtb (score_of r) 0.7) comments_results in
      let moderately :=
        filter (fun r => Num.ltb 0.5 (score_of r) && Qle_bool (score_of r) 0.7)
               comments_results in
      let relevant_comments :=
        filter (fun r => Num.gtb (score_of r) 0.3) comments_results in
      match relevant_comments with
      | [] =>
          Some (NoRelevant "No highly relevant comments found for the main document."
                           (List.length comments_results) 0)
      | _ =>
          let sentiment_counts :=
            Counter (map (fun r => Adjust.adj_label (adjusted_sentiment (result r)))
                         relevant_comments) in
          let type_counts :=
            Counter (map (fun r => Intent.primary_type (comment_type (result r)))
                         relevant_comments) in
          let section_feedback := group_by_section relevant_comments in
          match document_title self with
          | None => None                      (* AttributeError *)
          | Some title_ =>
              Some (Full (summary_text (List.length comments_results) title_
                            (List.length relevant_comments)
                            sentiment_counts type_counts
                            (firstn 5 (map fst section_feedback)))
                         {| total_comments := List.length comments_results;
                            relevant_comments := List.length relevant_comments;
                            highly_relevant := List.length highly;
                            moderately_relevant := List.length moderately |}
                         sentiment_counts type_counts section_feedback)
          end
      end
  end.

End WithLibraries.

(** The loop under "Section-wise Analysis" in [run_analysis] of [app.py]. *)
Definition app_section_feedback (doc_results : list batch_result)
  : list (string * list batch_result) :=
  fold_left (fun groups r =>
               match most_relevant_section (relevance (result r)) with
               | Some section =>
                   if Num.gtb (score_of r) 0.3
                   then append_to (title section) r groups
                   else groups
               | None => groups
               end)
            doc_results [].

(** The "Relevant Comments" and "Positive & Relevant" metrics of
    [run_analysis]. *)
Definition relevant_count (doc_results : list batch_result) : nat :=
  list_sum (map (fun _ => 1)
                (filter (fun r => Num.gtb (score_of r) 0.3) doc_results)).

Definition positive_relevant (doc_results : list batch_result) : nat :=
  list_sum (map (fun _ => 1)
                (filter (fun r =>
                           Num.gtb (score_of r) 0.3 &&
                           (Adjust.adj_label (adjusted_sentiment (result r))
                            =? "POSITIVE")%string)
                        doc_results)).

End Pipeline.

(* ================================================================== *)
(** ** The basic analyzer of [sentiment_analyzer.py]: [analyze_sentiment],
       [analyze_batch_sentiments], and the counters [app.py] derives *)

(** TextBlob is external: [blob_sentiment text] is the pair of polarity and
    subjectivity, [None] when the call raises. *)
Class TextBlob : Type := {
  blob_sentiment : string -> option (Q * Q)
}.

Module Basic.

Local Open Scope Q_scope.

(** The dict returned by [analyze_sentiment]. *)
Record result := {
  label : string;
  confidence : Q;
  polarity : Q;
  subjectivity : Q;
  sentiment_score : Q
}.

(** The dict of the [except] branch. *)
Definition fallback : result :=
  {| label := "NEUTRAL";
     confidence := 0.5;
     polarity := 0;
     subjectivity := 0.5;
     sentiment_score := 0 |}.

Section WithLibraries.

Context `{SentimentModel} `{TextBlob}.

(** [analyze_sentiment]: whatever raises inside the [try] is answered
    with the fallback dict. *)
Definition analyze_sentiment (text : string) : result :=
  match sentiment_pipeline text with
  | None => fallback
  | Some sentiment_result =>
      match blob_sentiment text with
      | None => fallback
      | Some (polarity_, subjectivity_) =>
          {| label := Pipeline.normalize_label (Adjust.label sentiment_result);
             confidence := Adjust.score sentiment_result;
             polarity := polarity_;
             subjectivity := subjectivity_;
             sentiment_score := polarity_ |}
      end
  end.

Definition analyze_batch_sentiments (texts : list string) : list result :=
  map analyze_sentiment texts.

End WithLibraries.

(** [sum(1 for r in sentiment_results if r.get('label') == name)] *)
Definition count_label (name : string) (sentiment_results : list result) : nat :=
  list_sum (map (fun _ => 1%nat)
                (filter (fun r => (label r =? name)%string) sentiment_results)).

(** [categorize_confidence] of [run_analysis]. *)
Definition categorize_confidence (conf : Q) : string :=
  if Qle_bool conf 0.6 then "Low"
  else if Qle_bool conf 0.8 then "Medium"
  else "High".

End Basic.

(* ================================================================== *)
(** ** Stand-ins for the external libraries

    Small executable implementations of the interfaces, used to run the
    analyzers on concrete inputs.  They are not NLTK, scikit-learn, the
    RoBERTa model or TextBlob; every general statement below is proved for
    all implementations. *)

Module Standin.

Local Open Scope Q_scope.

Definition terminator (c : ascii) : bool :=
  Ascii.eqb c "." || Ascii.eqb c "!" || Ascii.eqb c "?".

Definition at_boundary (tl : string) : bool :=
  match tl with
  | EmptyString => true
  | String d _ => Py.isspace d
  end.

(** Cuts the text after every terminator that is followed by whitespace
    or ends the text.  [cur] is the piece being read, reversed. *)
Fixpoint pieces (cur : list ascii) (s : string) : list string :=
  match s with
  | EmptyString => [string_of_list_ascii (rev cur)]
  | String c tl =>
      if terminator c && at_boundary tl
      then string_of_list_ascii (rev (c :: cur)) :: pieces [] tl
      else pieces (c :: cur) tl
  end.

Definition split_sentences (text : string) : list string :=
  filter (fun p => negb (Py.blank p)) (map Py.strip (pieces [] text)).

(** Bag-free word overlap: shared distinct words over all distinct words. *)
Definition words (text : string) : list string :=
  nodup string_dec (Py.split (Py.lower text)).

Definition overlap (a b : list string) : Q :=
  let shared := filter (fun w => Py.mem w b) a in
  let all := nodup string_dec (a ++ b) in
  match all with
  | [] => 0
  | _ => Num.of_nat (List.length shared) / Num.of_nat (List.length all)
  end.

(** The vectorizer is fitted or not; a matrix is one word list per row. *)
Definition fit (v : bool) (texts : list string) : bool * option (list (list string)) :=
  if forallb (fun t => match words t with [] => true | _ => false end) texts
  then (v, None)                         (* empty vocabulary *)
  else (true, Some (map words texts)).

Definition project (v : bool) (texts : list string) : option (list (list string)) :=
  if v then Some (map words texts) else None.   (* not fitted *)

Definition cosine_row (a b : list (list string)) : option (list Q) :=
  match a with
  | [] => None
  | row :: _ => Some (map (overlap row) b)
  end.

(** A sentiment model by cue words that answers with the raw label names
    of the RoBERTa model; it raises on a text of more than 512
    characters. *)
Definition cue_sentiment (text : string) : option Adjust.sentiment :=
  if (512 <? Py.len text)%nat then None
  else if Py.contains "good" (Py.lower text)
  then Some {| Adjust.label := "LABEL_2"; Adjust.score := 0.9 |}
  else if Py.contains "bad" (Py.lower text)
  then Some {| Adjust.label := "LABEL_0"; Adjust.score := 0.8 |}
  else Some {| Adjust.label := "LABEL_1"; Adjust.score := 0.6 |}.

(** Polarity by the same cue words; it raises on the empty text. *)
Definition cue_polarity (text : string) : option (Q * Q) :=
  match text with
  | EmptyString => None
  | _ =>
      if Py.contains "good" (Py.lower text) then Some (0.7, 0.6)
      else if Py.contains "bad" (Py.lower text) then Some (-0.7, 0.6)
      else Some (0, 0)
  end.

End Standin.

(* ================================================================== *)
(** * Properties *)

Module NumFacts.

Local Open Scope Q_scope.
Import Num.

Lemma ltb_spec (a b : Q) : ltb a b = true <-> a < b.
Proof.
  unfold ltb. rewrite negb_true_iff.
  destruct (Qle_bool b a) eqn:E.
  - apply Qle_bool_iff in E. split; [discriminate | intro H].
    exfalso. apply (Qlt_not_le _ _ H E).
  - split; [intros _ | reflexivity].
    apply Qnot_le_lt. intro H. apply Qle_bool_iff in H. congruence.
Qed.

Lemma ltb_false (a b : Q) : ltb a b = false <-> b <= a.
Proof.
  unfold ltb. rewrite negb_false_iff. apply Qle_bool_iff.
Qed.

Lemma min_spec (a b : Q) : min a b == Qmin a b.
Proof.
  unfold min. destruct (ltb b a) eqn:E.
  - apply ltb_spec in E. symmetry. apply Q.min_r. apply Qlt_le_weak, E.
  - apply ltb_false in E. symmetry. apply Q.min_l, E.
Qed.


End NumFacts.

(* ================================================================== *)
(** ** Facts about the string primitives *)

Module PyFacts.

Import Py.

Lemma blank_lstrip (s : string) : blank (lstrip s) = blank s.
Proof.
  induction s as [|c tl IH]; simpl; [reflexivity|].
  destruct (isspace c) eqn:E; simpl; [exact IH | now rewrite E].
Qed.

Lemma blank_rstrip (s : string) : blank (rstrip s) = blank s.
Proof.
  induction s as [|c tl IH]; simpl; [reflexivity|].
  destruct (rstrip tl) as [|d tl'] eqn:R.
  - simpl in IH. rewrite <- IH.
    destruct (isspace c) eqn:E; simpl; [reflexivity | now rewrite E].
  - rewrite <- IH. reflexivity.
Qed.

Lemma blank_strip (s : string) : blank (strip s) = blank s.
Proof. unfold strip. now rewrite blank_rstrip, blank_lstrip. Qed.

Lemma blank_app (a b : string) : blank (a ++ b) = blank a && blank b.
Proof.
  induction a as [|c tl IH]; simpl; [reflexivity|].
  now rewrite IH, andb_assoc.
Qed.

Lemma forallb_rev {A} (f : A -> bool) (l : list A) :
  forallb f (rev l) = forallb f l.
Proof.
  induction l as [|x l IH]; simpl; [reflexivity|].
  rewrite forallb_app, IH. simpl. rewrite andb_true_r. apply andb_comm.
Qed.

Lemma blank_of_list (l : list ascii) :
  blank (string_of_list_ascii l) = forallb isspace l.
Proof. induction l as [|c tl IH]; simpl; [reflexivity | now rewrite IH]. Qed.

End PyFacts.

(* ================================================================== *)
(** ** The stand-ins implement the interfaces *)

Module StandinFacts.

Import Standin.

Lemma terminator_not_space (c : ascii) : terminator c = true -> Py.isspace c = false.
Proof.
  unfold terminator. intro H.
  apply orb_true_iff in H as [H|H]; [apply orb_true_iff in H as [H|H]|];
    apply Ascii.eqb_eq in H; subst c; reflexivity.
Qed.

(** Some piece is non-blank exactly when the text read so far, followed by
    the text still to read, is. *)
Lemma pieces_blank (s : string) (cur : list ascii) :
  forallb Py.blank (pieces cur s) = forallb Py.isspace cur && Py.blank s.
Proof.
  revert cur. induction s as [|c tl IH]; intro cur; simpl.
  - rewrite PyFacts.blank_of_list, PyFacts.forallb_rev. now rewrite !andb_true_r.
  - destruct (terminator c && at_boundary tl) eqn:E.
    + apply andb_true_iff in E as [T _].
      apply terminator_not_space in T.
      cbn [forallb]. rewrite PyFacts.blank_of_list, forallb_app.
      cbn [forallb]. rewrite T. simpl. now rewrite !andb_false_r.
    + rewrite IH. simpl.
      destruct (Py.isspace c); simpl;
        [reflexivity | now rewrite andb_false_r].
Qed.

Lemma split_sentences_nil (text : string) :
  split_sentences text = [] <-> Py.blank text = true.
Proof.
  unfold split_sentences.
  assert (G : forall l : list string,
             filter (fun p => negb (Py.blank p)) (map Py.strip l) = []
             <-> forallb Py.blank l = true).
  { induction l as [|p l IH]; simpl; [tauto|].
    rewrite PyFacts.blank_strip.
    destruct (Py.blank p); simpl; [exact IH | split; discriminate]. }
  rewrite G, pieces_blank. simpl. tauto.
Qed.

Lemma split_sentences_blank (text : string) :
  Py.blank text = true -> split_sentences text = [].
Proof. apply split_sentences_nil. Qed.

Lemma split_sentences_nonblank (text : string) :
  Py.blank text = false -> split_sentences text <> [].
Proof. intros B E. apply split_sentences_nil in E. congruence. Qed.

#[export] Instance sentences : SentTokenizer :=
  {| sent_tokenize := split_sentences;
     sent_tokenize_blank := split_sentences_blank;
     sent_tokenize_nonblank := split_sentences_nonblank |}.

Lemma fit_ok (v : bool) (texts : list string) (v' : bool) (m : list (list string)) :
  fit v texts = (v', Some m) ->
  forall comment,
  exists e sims,
    project v' [comment] = Some e /\
    cosine_row e m = Some sims /\
    List.length sims = List.length texts.
Proof.
  intros F comment. unfold fit in F.
  destruct (forallb _ texts); [discriminate|].
  injection F as <- <-.
  exists [words comment], (map (overlap (words comment)) (map words texts)).
  repeat split. now rewrite !length_map.
Qed.

#[export] Instance word_overlap : Tfidf :=
  {| vectorizer := bool;
     matrix := list (list string);
     new_vectorizer := false;
     fit_transform := fit;
     transform := project;
     similarity_row := cosine_row;
     fit_transform_ok := fit_ok |}.

#[export] Instance cue_model : SentimentModel :=
  {| sentiment_pipeline := cue_sentiment |}.

#[export] Instance cue_blob : TextBlob :=
  {| blob_sentiment := cue_polarity |}.

End StandinFacts.

(* ================================================================== *)
(** ** The sentiment adjuster *)

Module AdjustFacts.

Import Adjust.
Local Open Scope Q_scope.

(** Step 1 of the adjustment: the confidence scaled by the relevance. *)
Definition scaled (b : sentiment) (r : Relevance.result) : Q :=
  score b * (0.5 + 0.5 * Relevance.relevance_score r).

(** The intent agrees with the sentiment label. *)
Definition reinforcing (intent label : string) : Prop :=
  (intent = "Support"%string /\ label = "POSITIVE"%string) \/
  (intent = "Opposition"%string /\ label = "NEGATIVE"%string).

(** A question or a request for clarification with a label that is not
    neutral. *)
Definition dampening (intent label : string) : Prop :=
  (intent = "Question"%string \/ intent = "Clarification"%string) /\
  label <> "NEUTRAL"%string.

(** Step 2 of the adjustment, as the conditional chain computes it. *)
Definition step2 (intent label : string) (a : Q) : Q :=
  if ((intent =? "Support") && (label =? "POSITIVE"))%string
  then Num.min 1 (a * 1.2)
  else if ((intent =? "Opposition") && (label =? "NEGATIVE"))%string
  then Num.min 1 (a * 1.2)
  else if Py.mem intent ["Question"; "Clarification"]%string
  then (if negb (label =? "NEUTRAL")%string then a * 0.8 else a)
  else a.

Lemma truediv_defined (a b : Q) : 0 < b -> Num.truediv a b = Some (a / b).
Proof.
  intro H. unfold Num.truediv.
  destruct (Qeq_bool b 0) eqn:E; [|reflexivity].
  apply Qeq_bool_iff in E. rewrite E in H. now apply Qlt_irrefl in H.
Qed.

(** The adjustment always returns, and its fields are these. *)
Lemma adjust_returns (b : sentiment) (r : Relevance.result) (c : Intent.result) :
  _adjust_sentiment_for_context b r c =
    Some {| adj_label := label b;
            adj_score := step2 (Intent.primary_type c) (label b) (scaled b r);
            original_score := score b;
            adjustment_factor :=
              if Num.gtb (score b) 0
              then step2 (Intent.primary_type c) (label b) (scaled b r) / score b
              else 1 |}.
Proof.
  unfold _adjust_sentiment_for_context.
  fold (scaled b r). fold (step2 (Intent.primary_type c) (label b) (scaled b r)).
  destruct (Num.gtb (score b) 0) eqn:G; [|reflexivity].
  apply NumFacts.ltb_spec in G. now rewrite truediv_defined.
Qed.

Lemma step2_reinforcing (intent label : string) (a : Q) :
  reinforcing intent label -> step2 intent label a == Qmin 1 (a * 1.2).
Proof.
  intros [[-> ->] | [-> ->]]; unfold step2; simpl; apply NumFacts.min_spec.
Qed.

Lemma reinforcing_test (intent label : string) :
  ~ reinforcing intent label ->
  ((intent =? "Support") && (label =? "POSITIVE"))%string = false /\
  ((intent =? "Opposition") && (label =? "NEGATIVE"))%string = false.
Proof.
  intro N. split; apply not_true_is_false; intro E;
    apply andb_true_iff in E as [E1 E2];
    apply String.eqb_eq in E1, E2; apply N; [left | right]; now split.
Qed.

Lemma mem_question_or_clarification (intent : string) :
  Py.mem intent ["Question"; "Clarification"]%string = true <->
  intent = "Question"%string \/ intent = "Clarification"%string.
Proof.
  unfold Py.mem. simpl. rewrite orb_false_r, orb_true_iff, !String.eqb_eq. tauto.
Qed.

Lemma step2_dampening (intent label : string) (a : Q) :
  ~ reinforcing intent label -> dampening intent label ->
  step2 intent label a == a * 0.8.
Proof.
  intros N [I L]. unfold step2.
  destruct (reinforcing_test _ _ N) as [-> ->].
  apply mem_question_or_clarification in I. rewrite I.
  apply String.eqb_neq in L. rewrite L. reflexivity.
Qed.

Lemma step2_otherwise (intent label : string) (a : Q) :
  ~ reinforcing intent label -> ~ dampening intent label ->
  step2 intent label a = a.
Proof.
  intros N D. unfold step2.
  destruct (reinforcing_test _ _ N) as [-> ->].
  destruct (Py.mem intent _) eqn:I; [|reflexivity].
  destruct (String.eqb_spec label "NEUTRAL") as [E|E]; [reflexivity|].
  exfalso. apply D. split; [now apply mem_question_or_clarification | exact E].
Qed.

(** C3: the adjusted confidence is [confidence * (0.5 + 0.5 * relevance)],
    then multiplied by 1.2 and capped at 1 when the intent reinforces the
    label (Support with POSITIVE, Opposition with NEGATIVE); otherwise
    multiplied by 0.8 when the intent is Question or Clarification and the
    label is not NEUTRAL; otherwise left as it is. *)
Theorem adjusted_confidence_rule
    (b : sentiment) (r : Relevance.result) (c : Intent.result) :
  exists res,
    _adjust_sentiment_for_context b r c = Some res /\
    let intent := Intent.primary_type c in
    let a := score b * (0.5 + 0.5 * Relevance.relevance_score r) in
    (reinforcing intent (label b) -> adj_score res == Qmin 1 (a * 1.2)) /\
    (~ reinforcing intent (label b) -> dampening intent (label b) ->
       adj_score res == a * 0.8) /\
    (~ reinforcing intent (label b) -> ~ dampening intent (label b) ->
       adj_score res == a).
Proof.
  eexists. split; [apply adjust_returns|]. cbn [adj_score]. unfold scaled.
  repeat split.
  - apply step2_reinforcing.
  - apply step2_dampening.
  - intros N D. now rewrite step2_otherwise.
Qed.

Definition positive (p : Q) : sentiment := {| label := "POSITIVE"; score := p |}.
Definition negative (p : Q) : sentiment := {| label := "NEGATIVE"; score := p |}.

Definition relevance_of (s : Q) : Relevance.result :=
  {| Relevance.relevance_score := s;
     Relevance.most_relevant_section := None;
     Relevance.relevance_category := "Low Relevance";
     Relevance.all_similarities := Some [] |}.

Definition intent_of (t : string) : Intent.result :=
  {| Intent.primary_type := t;
     Intent.confidence := 1;
     Intent.all_scores := [];
     Intent.is_constructive := Py.mem t ["Suggestion"; "Question"; "Clarification"]%string |}.

(** The three cases of C3 at concrete inputs: a reinforced, a dampened and
    an untouched confidence. *)
Lemma adjusted_confidence_rule_witness :
  (exists res,
     _adjust_sentiment_for_context (positive 0.9) (relevance_of 1) (intent_of "Support")
       = Some res /\ adj_score res == 1) /\
  (exists res,
     _adjust_sentiment_for_context (negative 0.5) (relevance_of 0) (intent_of "Question")
       = Some res /\ adj_score res == 0.2) /\
  (exists res,
     _adjust_sentiment_for_context (negative 0.5) (relevance_of 0) (intent_of "Support")
       = Some res /\ adj_score res == 0.25).
Proof.
  repeat split.
  - destruct (adjusted_confidence_rule (positive 0.9) (relevance_of 1) (intent_of "Support"))
      as [res [E [H1 _]]].
    exists res. split; [exact E|].
    rewrite H1; [reflexivity | left; split; reflexivity].
  - destruct (adjusted_confidence_rule (negative 0.5) (relevance_of 0) (intent_of "Question"))
      as [res [E [_ [H2 _]]]].
    exists res. split; [exact E|].
    rewrite H2; [reflexivity | |].
    + intros [[H _]|[H _]]; discriminate H.
    + split; [left; reflexivity | discriminate].
  - destruct (adjusted_confidence_rule (negative 0.5) (relevance_of 0) (intent_of "Support"))
      as [res [E [_ [_ H3]]]].
    exists res. split; [exact E|].
    rewrite H3; [reflexivity | |].
    + intros [[_ H]|[H _]]; discriminate H.
    + intros [[H|H] _]; discriminate H.
Defined.

(** C9: the adjustment never raises; with an original confidence of 0 the
    adjustment factor is exactly 1, and with a positive original confidence
    it is the adjusted confidence divided by the original one. *)
Theorem adjustment_factor_rule
    (b : sentiment) (r : Relevance.result) (c : Intent.result) :
  exists res,
    _adjust_sentiment_for_context b r c = Some res /\
    (score b == 0 -> adjustment_factor res = 1) /\
    (0 < score b -> adjustment_factor res == adj_score res / original_score res).
Proof.
  eexists. split; [apply adjust_returns|]. cbn [adjustment_factor adj_score original_score].
  split.
  - intro Z. destruct (Num.gtb (score b) 0) eqn:G; [|reflexivity].
    apply NumFacts.ltb_spec in G. rewrite Z in G. now apply Qlt_irrefl in G.
  - intro P. apply NumFacts.ltb_spec in P. unfold Num.gtb. rewrite P. reflexivity.
Qed.

Lemma adjustment_factor_rule_witness :
  (exists res,
     _adjust_sentiment_for_context (positive 0) (relevance_of 1) (intent_of "Support")
       = Some res /\ adjustment_factor res = 1) /\
  (exists res,
     _adjust_sentiment_for_context (positive 0.5) (relevance_of 0) (intent_of "Support")
       = Some res /\ adjustment_factor res == 0.6).
Proof.
  split.
  - destruct (adjustment_factor_rule (positive 0) (relevance_of 1) (intent_of "Support"))
      as [res [E [H0 _]]].
    exists res. split; [exact E | apply H0; reflexivity].
  - destruct (adjustment_factor_rule (positive 0.5) (relevance_of 0) (intent_of "Support"))
      as [res [E [_ H1]]].
    exists res. split; [exact E|].
    rewrite H1 by reflexivity.
    rewrite adjust_returns in E. injection E as <-. reflexivity.
Defined.

(** C10: the adjustment leaves the label and the original confidence as
    they came in: the returned label is the base label and the returned
    [original_score] is the base confidence. *)
Theorem adjustment_frame
    (b : sentiment) (r : Relevance.result) (c : Intent.result) :
  exists res,
    _adjust_sentiment_for_context b r c = Some res /\
    adj_label res = label b /\
    original_score res = score b.
Proof.
  eexists. split; [apply adjust_returns|]. split; reflexivity.
Qed.

End AdjustFacts.

(* ================================================================== *)
(** ** The intent classifier *)

Module IntentFacts.

Import Intent.

Definition hit (text keyword : string) : bool := Py.contains keyword text.

(** The number of distinct keywords of a list that occur in the text. *)
Definition distinct_hits (keywords : list string) (text : string) : nat :=
  List.length (filter (hit text) (nodup string_dec keywords)).

(** The two keywords the source lists twice, each in one category. *)
Definition listed_twice (category : string) : option string :=
  if (category =? "Support")%string then Some "excellent"%string
  else if (category =? "Question")%string then Some "unclear"%string
  else None.

(** The raw score of a category: its distinct keywords found in the text,
    a keyword listed twice counting twice. *)
Definition raw_score (category : string) (keywords : list string) (text : string) : nat :=
  distinct_hits keywords text +
  match listed_twice category with
  | Some k => if hit text k then 1 else 0
  | None => 0
  end.

(** [e] is the first entry of [d] with the largest value. *)
Definition first_largest (d : list (string * nat)) (e : string * nat) : Prop :=
  exists i,
    nth_error d i = Some e /\
    (forall j e', nth_error d j = Some e' -> snd e' <= snd e) /\
    (forall j e', j < i -> nth_error d j = Some e' -> snd e' < snd e).

Definition weight (text keyword : string) : nat := if hit text keyword then 1 else 0.

Lemma keyword_score_sum (keywords : list string) (text : string) :
  keyword_score keywords text = list_sum (map (weight text) keywords).
Proof.
  unfold keyword_score, weight, hit.
  induction keywords as [|k l IH]; simpl; [reflexivity|].
  destruct (Py.contains k text); simpl; now rewrite IH.
Qed.

Lemma distinct_hits_sum (keywords : list string) (text : string) :
  distinct_hits keywords text =
  list_sum (map (weight text) (nodup string_dec keywords)).
Proof.
  unfold distinct_hits, weight.
  induction (nodup string_dec keywords) as [|k l IH]; simpl; [reflexivity|].
  destruct (hit text k); simpl; now rewrite IH.
Qed.

Ltac compute_nodup :=
  match goal with
  | |- context [nodup string_dec ?l] =>
      let l' := eval vm_compute in (nodup string_dec l) in
      change (nodup string_dec l) with l'
  end.

Lemma keyword_score_raw (text : string) (entry : string * list string) :
  In entry classifications ->
  keyword_score (snd entry) text = raw_score (fst entry) (snd entry) text.
Proof.
  unfold classifications, raw_score. intro H.
  rewrite keyword_score_sum, distinct_hits_sum.
  repeat (destruct H as [<- | H];
          [ cbn [fst snd]; compute_nodup;
            cbn [map list_sum fold_right listed_twice String.eqb Ascii.eqb Bool.eqb];
            fold (weight text "excellent"); fold (weight text "unclear");
            generalize (weight text); intro w; lia | ]).
  destruct H.
Qed.

(** The scores the loop computes are the raw scores of the six categories. *)
Lemma category_scores_raw (text : string) :
  category_scores text =
  map (fun entry => (fst entry, raw_score (fst entry) (snd entry) text)) classifications.
Proof.
  unfold category_scores. apply map_ext_in.
  intros entry H. now rewrite keyword_score_raw.
Qed.

Lemma nth_error_snoc {A} (l : list A) (x : A) (j : nat) (y : A) :
  nth_error (l ++ [x]) j = Some y ->
  (j < List.length l /\ nth_error l j = Some y) \/ (j = List.length l /\ y = x).
Proof.
  intro H. destruct (Nat.lt_ge_cases j (List.length l)) as [L|L].
  - left. split; [exact L|]. now rewrite nth_error_app1 in H.
  - right. rewrite nth_error_app2 in H by exact L.
    destruct (j - List.length l) as [|n] eqn:E.
    + simpl in H. injection H as <-. split; [lia | reflexivity].
    + simpl in H. destruct n; discriminate.
Qed.

(** The scan keeps the first largest entry of what it has seen. *)
Lemma max_from_scan (rest seen : list (string * nat)) (best : string * nat) (i : nat) :
  nth_error seen i = Some best ->
  (forall j e', nth_error seen j = Some e' -> snd e' <= snd best) ->
  (forall j e', j < i -> nth_error seen j = Some e' -> snd e' < snd best) ->
  first_largest (seen ++ rest) (max_from best rest).
Proof.
  revert seen best i.
  induction rest as [|e tl IH]; intros seen best i Hi Hall Hbefore.
  - rewrite app_nil_r. exists i. auto.
  - cbn [max_from].
    replace (seen ++ e :: tl) with ((seen ++ [e]) ++ tl)
      by (now rewrite <- app_assoc).
    destruct (snd best <? snd e) eqn:C.
    + apply Nat.ltb_lt in C.
      apply (IH (seen ++ [e]) e (List.length seen)).
      * rewrite nth_error_app2 by lia. now rewrite Nat.sub_diag.
      * intros j e' H. apply nth_error_snoc in H as [[_ H] | [_ ->]]; [|lia].
        apply Hall in H. lia.
      * intros j e' L H. apply nth_error_snoc in H as [[_ H] | [-> _]]; [|lia].
        apply Hall in H. lia.
    + apply Nat.ltb_ge in C.
      assert (Li : i < List.length seen)
        by (apply nth_error_Some; congruence).
      apply (IH (seen ++ [e]) best i).
      * now rewrite nth_error_app1.
      * intros j e' H. apply nth_error_snoc in H as [[_ H] | [_ ->]]; [|lia].
        now apply Hall in H.
      * intros j e' L H. apply nth_error_snoc in H as [[_ H] | [-> _]]; [|lia].
        now apply (Hbefore j).
Qed.

Lemma max_by_value_first_largest (d : list (string * nat)) (e : string * nat) :
  max_by_value d = Some e -> first_largest d e.
Proof.
  destruct d as [|e0 tl]; [discriminate|].
  cbn [max_by_value]. intros [= <-].
  apply (max_from_scan tl [e0] e0 0).
  - reflexivity.
  - intros [|[|j]] e' H; simpl in H; try discriminate. now injection H as <-.
  - intros j e' L. lia.
Qed.

Lemma of_nat_pos (n : nat) : 0 < n -> (0 < Num.of_nat n)%Q.
Proof.
  intro H. unfold Num.of_nat, Qlt. simpl. lia.
Qed.

(** What the classifier computes, for every comment: it returns; the raw
    score of each of the six categories is the number of distinct keywords of
    its list found in the lower-cased comment, "excellent" (Support) and
    "unclear" (Question), which the source lists twice, counting twice; the
    primary category is the first one, in the fixed order, with the largest
    raw score; the confidence is the primary raw score divided by the sum of
    the six raw scores, and 0 when that sum is 0; [is_constructive] holds
    exactly for Suggestion, Question and Clarification. *)
Theorem classify_comment_type_rule (comment : string) :
  exists res primary_score,
    classify_comment_type comment = Some res /\
    all_scores res =
      map (fun entry =>
             (fst entry, raw_score (fst entry) (snd entry) (Py.lower comment)))
          classifications /\
    first_largest (all_scores res) (primary_type res, primary_score) /\
    (sum_values (all_scores res) = 0 -> confidence res = 0%Q) /\
    (0 < sum_values (all_scores res) ->
       (confidence res ==
          Num.of_nat primary_score / Num.of_nat (sum_values (all_scores res)))%Q) /\
    (is_constructive res = true <->
       primary_type res = "Suggestion"%string \/
       primary_type res = "Question"%string \/
       primary_type res = "Clarification"%string).
Proof.
  unfold classify_comment_type.
  destruct (max_by_value (category_scores (Py.lower comment)))
    as [[primary p]|] eqn:M.
  2:{ exfalso. unfold category_scores, classifications in M. discriminate M. }
  apply max_by_value_first_largest in M.
  set (total := sum_values (category_scores (Py.lower comment))).
  assert (C : is_true (Py.mem primary ["Suggestion"; "Question"; "Clarification"]%string) <->
              primary = "Suggestion"%string \/ primary = "Question"%string \/
              primary = "Clarification"%string).
  { unfold is_true, Py.mem. simpl.
    rewrite orb_false_r, !orb_true_iff, !String.eqb_eq. tauto. }
  destruct (0 <? total) eqn:T.
  - apply Nat.ltb_lt in T.
    rewrite AdjustFacts.truediv_defined by now apply of_nat_pos.
    eexists; exists p. split; [reflexivity|].
    cbn [all_scores primary_type confidence is_constructive]. fold total.
    split; [apply category_scores_raw|].
    split; [exact M|].
    split; [intro Z; lia|].
    split; [reflexivity | exact C].
  - apply Nat.ltb_ge in T.
    eexists; exists p. split; [reflexivity|].
    cbn [all_scores primary_type confidence is_constructive]. fold total.
    split; [apply category_scores_raw|].
    split; [exact M|].
    split; [reflexivity|].
    split; [intro P; lia | exact C].
Qed.

(** The rule at a comment that asks a question: the six raw scores add up
    to 4, so the confidence is the primary raw score over 4. *)
Lemma classify_comment_type_rule_example :
  exists res primary_score,
    classify_comment_type "What does this mean? Please clarify section 3" = Some res /\
    first_largest (all_scores res) (primary_type res, primary_score) /\
    (confidence res == Num.of_nat primary_score / 4)%Q.
Proof.
  destruct (classify_comment_type_rule "What does this mean? Please clarify section 3")
    as [res [p [E [S [F [_ [H _]]]]]]].
  exists res, p. split; [exact E|]. split; [exact F|].
  assert (T : sum_values (all_scores res) = 4) by (rewrite S; reflexivity).
  rewrite T in H. apply H. lia.
Qed.

(** The six counts of distinct keywords found in a comment. *)
Definition distinct_scores (comment : string) : list (string * nat) :=
  map (fun entry => (fst entry, distinct_hits (snd entry) (Py.lower comment)))
      classifications.

(** C2: the raw score is meant to be the count of distinct keywords of the
    category's list found in the comment, and the primary category the first
    one with the largest count.  The code departs from it where a list
    repeats a keyword.  "excellent" is one distinct Support keyword, yet the
    Support score of the comment "excellent" is 2; and in "excellent, yet I
    object and reject" Opposition has two distinct keywords against one for
    Support, yet the code answers Support. *)
Theorem repeated_keyword_counts_twice :
  (exists res,
     classify_comment_type "excellent" = Some res /\
     nth_error (all_scores res) 0 = Some ("Support"%string, 2) /\
     nth_error (distinct_scores "excellent") 0 = Some ("Support"%string, 1)) /\
  (exists res,
     classify_comment_type "excellent, yet I object and reject" = Some res /\
     primary_type res = "Support"%string /\
     first_largest (distinct_scores "excellent, yet I object and reject")
                   ("Opposition"%string, 2)).
Proof.
  split.
  - eexists. split; [vm_compute; reflexivity|]. split; vm_compute; reflexivity.
  - eexists. split; [vm_compute; reflexivity|]. split; [reflexivity|].
    exists 1. split; [vm_compute; reflexivity|].
    let scores := eval vm_compute in (distinct_scores "excellent, yet I object and reject") in
    change (distinct_scores "excellent, yet I object and reject") with scores.
    split.
    + intros [|[|[|[|[|[|j]]]]]] e' H; cbn in H; try (injection H as <-; cbn; lia).
      destruct j; discriminate H.
    + intros [|j] e' L H; [|lia]. cbn in H. injection H as <-. cbn. lia.
Qed.

(** C8, amended: on the empty comment the classifier returns, without
    raising, the primary category Support (the first of the fixed order),
    confidence 0, six raw scores of 0 and [is_constructive] false. *)
Theorem classify_empty_comment :
  classify_comment_type "" =
    Some {| primary_type := "Support";
            confidence := 0;
            all_scores := [ ("Support"%string, 0); ("Opposition"%string, 0);
                            ("Suggestion"%string, 0); ("Question"%string, 0);
                            ("Clarification"%string, 0); ("Implementation"%string, 0) ];
            is_constructive := false |}.
Proof. reflexivity. Qed.

(** C8 as stated fails: the category returned for the empty comment is
    not "Unknown". *)
Lemma classify_empty_not_unknown :
  ~ (exists res,
       classify_comment_type "" = Some res /\ primary_type res = "Unknown"%string).
Proof.
  intros [res [E U]]. vm_compute in E. injection E as <-. discriminate U.
Qed.

End IntentFacts.

(* ================================================================== *)
(** ** The matcher: groups that every match binds *)

Module ReFacts.

Import Re.

(** Group [n] has a span in the state. *)
Definition bound (n : nat) (st : mstate) : Prop := lookup n (caps st) <> None.

(** Every way through [r] passes group [n]. *)
Fixpoint binds (n : nat) (r : regex) : bool :=
  match r with
  | Grp m r' => (m =? n) || binds n r'
  | Cat r1 r2 => binds n r1 || binds n r2
  | Alt r1 r2 => binds n r1 && binds n r2
  | _ => false
  end.

Lemma bound_capture (n m start : nat) (st : mstate) :
  bound n st -> bound n (capture m start st).
Proof.
  unfold bound, capture. simpl. destruct (m =? n); [discriminate | auto].
Qed.

Lemma bound_capture_same (n start : nat) (st : mstate) :
  bound n (capture n start st).
Proof.
  unfold bound, capture. simpl. rewrite Nat.eqb_refl. discriminate.
Qed.

(** A relation between the state a matcher starts in and the state it
    hands to its continuation, kept by every step of the matcher. *)
Section Along.

Variable R : mstate -> mstate -> Prop.

Hypothesis R_refl : forall st, R st st.
Hypothesis R_trans : forall a b c, R a b -> R b c -> R a c.
Hypothesis R_advance :
  forall st c tl, rest st = String c tl -> R st (advance st tl).
Hypothesis R_capture : forall st n start, R st (capture n start st).
Hypothesis R_ahead :
  forall st st', R st st' ->
                 R st {| pos := pos st; rest := rest st; caps := caps st' |}.

Definition along (body : mstate -> (mstate -> option mstate) -> option mstate) : Prop :=
  forall st k x, body st k = Some x -> exists st', k st' = Some x /\ R st st'.

Lemma iterate_along body (greedy : bool) :
  along body -> forall fuel, along (fun st k' => iterate body greedy k' fuel st).
Proof.
  intros Hb. induction fuel as [|fuel IH]; intros st k' x H.
  - exists st. auto.
  - cbn [iterate] in H.
    assert (More :
      body st (fun st' => if pos st <? pos st' then iterate body greedy k' fuel st' else None)
        = Some x ->
      exists st', k' st' = Some x /\ R st st').
    { intro M. apply Hb in M as [st1 [M K1]].
      destruct (pos st <? pos st1); [|discriminate].
      apply IH in M as [st2 [M K2]]. exists st2. split; [exact M|].
      exact (R_trans _ _ _ K1 K2). }
    destruct greedy.
    + destruct (body st _) eqn:B.
      * injection H as ->. now apply More.
      * exists st. auto.
    + destruct (k' st) eqn:K.
      * injection H as ->. exists st. auto.
      * now apply More.
Qed.

Lemma run_along (f : flags) (r : regex) : along (run f r).
Proof.
  induction r as [|items|r1 IH1 r2 IH2|r1 IH1 r2 IH2|greedy r IH|m r IH|r IH|];
    intros st k x H; cbn [run] in H.
  - exists st. auto.
  - destruct (rest st) as [|c tl] eqn:E; [discriminate|].
    destruct (existsb _ items); [|discriminate].
    exists (advance st tl). eauto.
  - apply IH1 in H as [st1 [H K1]]. apply IH2 in H as [st2 [H K2]].
    exists st2. split; [exact H | exact (R_trans _ _ _ K1 K2)].
  - destruct (run f r1 st k) eqn:A.
    + injection H as ->. now apply IH1.
    + now apply IH2.
  - now apply (iterate_along _ greedy IH) in H.
  - apply IH in H as [st1 [H K1]].
    exists (capture m (pos st) st1). split; [exact H|].
    exact (R_trans _ _ _ K1 (R_capture _ _ _)).
  - destruct (run f r st Some) as [st1|] eqn:A; [|discriminate].
    apply IH in A as [st2 [A K2]]. injection A as ->.
    eexists. split; [exact H|]. auto.
  - exists st. split; [|auto].
    destruct (rest st) as [|c [|d tl]]; [exact H | | discriminate].
    destruct (Ascii.eqb c _); [exact H | discriminate].
Qed.

(** A matcher only looks at its continuation on the states it can hand
    over. *)
Definition local (body : mstate -> (mstate -> option mstate) -> option mstate) : Prop :=
  forall st k1 k2,
    (forall st', R st st' -> k1 st' = k2 st') -> body st k1 = body st k2.

Lemma iterate_local body (greedy : bool) :
  local body -> forall fuel, local (fun st k => iterate body greedy k fuel st).
Proof.
  intro Hb. induction fuel as [|fuel IH]; intros st k1 k2 E; cbn [iterate].
  - now apply E.
  - rewrite (E st (R_refl st)).
    rewrite (Hb st _ (fun st' =>
                        if pos st <? pos st' then iterate body greedy k2 fuel st'
                        else None)); [reflexivity|].
    intros st' S. destruct (pos st <? pos st'); [|reflexivity].
    apply IH. intros st'' S'. apply E. exact (R_trans _ _ _ S S').
Qed.

Lemma run_local (f : flags) (r : regex) : local (run f r).
Proof.
  induction r as [|items|r1 IH1 r2 IH2|r1 IH1 r2 IH2|greedy r IH|m r IH|r IH|];
    intros st k1 k2 E; cbn [run].
  - now apply E.
  - destruct (rest st) as [|c tl] eqn:T; [reflexivity|].
    destruct (existsb _ items); [|reflexivity]. apply E. eauto.
  - apply IH1. intros st1 S1. apply IH2. intros st2 S2.
    apply E. exact (R_trans _ _ _ S1 S2).
  - now rewrite (IH1 st k1 k2 E), (IH2 st k1 k2 E).
  - now apply (iterate_local _ greedy IH).
  - apply IH. intros st1 S1. apply E.
    exact (R_trans _ _ _ S1 (R_capture _ _ _)).
  - destruct (run f r st Some) as [st1|] eqn:A; [|reflexivity].
    apply run_along in A as [st2 [A S2]]. injection A as ->.
    apply E. auto.
  - rewrite (E st (R_refl st)). reflexivity.
Qed.

End Along.

(** A matcher only ever adds spans before it hands over to its
    continuation. *)
Lemma run_keeps (f : flags) (r : regex) (st : mstate) k x :
  run f r st k = Some x ->
  exists st', k st' = Some x /\ (forall n, bound n st -> bound n st').
Proof.
  apply (run_along (fun a b => forall n, bound n a -> bound n b)); auto.
  intros a n start m B. now apply bound_capture.
Qed.

(** A matcher never moves backwards in the subject. *)
Lemma run_forward (f : flags) (r : regex) (st : mstate) k x :
  run f r st k = Some x ->
  exists st', k st' = Some x /\ pos st <= pos st'.
Proof.
  apply (run_along (fun a b => pos a <= pos b)); cbn; intros; lia.
Qed.

(** A matcher whose continuation always fails, fails. *)
Lemma run_fails (f : flags) (r : regex) (st : mstate) :
  run f r st (fun _ => None) = None.
Proof.
  destruct (run f r st (fun _ => None)) as [x|] eqn:H; [|reflexivity].
  apply (run_along (fun _ _ => True)) in H; auto.
  destruct H as [st' [H _]]. discriminate H.
Qed.

(** The state [b] lies further on in the same subject as [a]. *)
Definition further (a b : mstate) : Prop :=
  pos a <= pos b /\
  pos a + String.length (rest a) = pos b + String.length (rest b).

Lemma run_local_further (f : flags) (r : regex) (st : mstate) k1 k2 :
  (forall st', further st st' -> k1 st' = k2 st') -> run f r st k1 = run f r st k2.
Proof.
  apply (run_local further); unfold further; cbn [pos rest advance capture]; intros;
    repeat match goal with
           | H : _ /\ _ |- _ => destruct H
           | H : rest _ = String _ _ |- _ => rewrite H; clear H
           end;
    cbn [String.length]; lia.
Qed.

(** The bound on the iterations of a repetition is never what stops it:
    one more unit of fuel changes nothing. *)
Lemma iterate_fuel (f : flags) (r : regex) (greedy : bool) k :
  forall fuel st,
    String.length (rest st) <= fuel ->
    iterate (run f r) greedy k (S fuel) st = iterate (run f r) greedy k fuel st.
Proof.
  induction fuel as [|fuel IH]; intros st L.
  - cbn [iterate].
    rewrite (run_local_further f r st _ (fun _ => None)), run_fails;
      [destruct greedy; [reflexivity | now destruct (k st)] |].
    intros st' [F1 F2].
    replace (pos st <? pos st') with false; [reflexivity|].
    symmetry. apply Nat.ltb_ge. lia.
  - cbn [iterate].
    rewrite (run_local_further f r st _
               (fun st' => if pos st <? pos st'
                           then iterate (run f r) greedy k fuel st' else None));
      [reflexivity|].
    intros st' [F1 F2].
    destruct (pos st <? pos st') eqn:P; [|reflexivity].
    apply Nat.ltb_lt in P. apply IH. lia.
Qed.

Lemma iterate_more_fuel (f : flags) (r : regex) (greedy : bool) k (st : mstate) :
  forall extra,
    iterate (run f r) greedy k (String.length (rest st) + extra) st =
    iterate (run f r) greedy k (String.length (rest st)) st.
Proof.
  induction extra as [|extra IH]; [now rewrite Nat.add_0_r|].
  rewrite Nat.add_succ_r, iterate_fuel by lia. exact IH.
Qed.

Lemma run_further (f : flags) (r : regex) (st : mstate) k x :
  run f r st k = Some x -> exists st', k st' = Some x /\ further st st'.
Proof.
  apply (run_along further); unfold further; cbn [pos rest advance capture]; intros;
    repeat match goal with
           | H : _ /\ _ |- _ => destruct H
           | H : rest _ = String _ _ |- _ => rewrite H; clear H
           end;
    cbn [String.length]; lia.
Qed.

(** A match lies in the part of the subject that was searched, and what
    is left after it is the rest of the subject. *)
Lemma search_from_span (f : flags) (r : regex) :
  forall s p m s',
    search_from f r p s = Some (m, s') ->
    p <= m_start m <= m_end m /\
    p + String.length s = m_end m + String.length s'.
Proof.
  induction s as [|c tl IH]; intros p m s' H; cbn [search_from] in H.
  - destruct (run f r _ Some) as [st|] eqn:R; [|discriminate].
    injection H as <- <-. apply run_further in R as [st' [E [F1 F2]]].
    injection E as <-. cbn in *. lia.
  - destruct (run f r _ Some) as [st|] eqn:R.
    + injection H as <- <-. apply run_further in R as [st' [E [F1 F2]]].
      injection E as <-. cbn in *. lia.
    + apply IH in H. cbn [String.length]. lia.
Qed.

(** The bound on the number of matches is never what ends the scan. *)
Lemma finditer_fuel (f : flags) (r : regex) :
  forall fuel p s,
    String.length s < fuel ->
    finditer_from (S fuel) f r p s = finditer_from fuel f r p s.
Proof.
  induction fuel as [|fuel IH]; intros p s L; [lia|].
  cbn [finditer_from].
  destruct (search_from f r p s) as [[m s']|] eqn:S; [|reflexivity].
  apply search_from_span in S as [[S1 S2] S3]. f_equal.
  destruct (m_start m <? m_end m) eqn:P.
  - apply Nat.ltb_lt in P. apply IH. lia.
  - destruct s' as [|c tl]; [reflexivity|].
    cbn [String.length] in S3. apply IH. lia.
Qed.

(** Every way through [r] reads at least one character. *)
Fixpoint consumes (r : regex) : bool :=
  match r with
  | One _ => true
  | Cat r1 r2 => consumes r1 || consumes r2
  | Alt r1 r2 => consumes r1 && consumes r2
  | Grp _ r' => consumes r'
  | _ => false
  end.

Lemma run_consumes (f : flags) (r : regex) :
  consumes r = true ->
  forall st k x, run f r st k = Some x -> exists st', k st' = Some x /\ pos st < pos st'.
Proof.
  induction r as [|items|r1 IH1 r2 IH2|r1 IH1 r2 IH2|greedy r IH|m r IH|r IH|];
    cbn [consumes]; intro C; try discriminate; intros st k x H; cbn [run] in H.
  - destruct (rest st) as [|c tl]; [discriminate|].
    destruct (existsb _ items); [|discriminate].
    exists (advance st tl). split; [exact H | cbn; lia].
  - apply orb_true_iff in C as [C|C].
    + apply (IH1 C) in H as [st1 [H L1]].
      apply run_forward in H as [st2 [H L2]]. exists st2. split; [exact H | lia].
    + apply run_forward in H as [st1 [H L1]].
      apply (IH2 C) in H as [st2 [H L2]]. exists st2. split; [exact H | lia].
  - apply andb_true_iff in C as [C1 C2].
    destruct (run f r1 st k) eqn:A.
    + injection H as ->. now apply (IH1 C1) in A.
    + now apply (IH2 C2) in H.
  - apply (IH C) in H as [st1 [H L1]].
    eexists. split; [exact H | exact L1].
Qed.

(** No match of such a pattern is empty. *)
Lemma search_from_nonempty (f : flags) (r : regex) :
  consumes r = true ->
  forall s p m s', search_from f r p s = Some (m, s') -> m_start m < m_end m.
Proof.
  intro C. induction s as [|c tl IH]; intros p m s' H; cbn [search_from] in H.
  - destruct (run f r _ Some) as [st|] eqn:R; [|discriminate].
    injection H as <- _.
    apply (run_consumes f r C) in R as [st' [E L]]. now injection E as <-.
  - destruct (run f r _ Some) as [st|] eqn:R.
    + injection H as <- _.
      apply (run_consumes f r C) in R as [st' [E L]]. now injection E as <-.
    + now apply IH in H.
Qed.

Lemma run_binds (f : flags) (n : nat) (r : regex) :
  binds n r = true ->
  forall st k x, run f r st k = Some x -> exists st', k st' = Some x /\ bound n st'.
Proof.
  induction r as [|items|r1 IH1 r2 IH2|r1 IH1 r2 IH2|greedy r IH|m r IH|r IH|];
    cbn [binds]; intro B; try discriminate; intros st k x H; cbn [run] in H.
  - apply orb_true_iff in B as [B|B].
    + apply (IH1 B) in H as [st1 [H B1]].
      apply run_keeps in H as [st2 [H K2]]. exists st2. auto.
    + apply run_keeps in H as [st1 [H _]]. now apply (IH2 B) in H.
  - apply andb_true_iff in B as [B1 B2].
    destruct (run f r1 st k) eqn:A.
    + injection H as ->. now apply (IH1 B1) in A.
    + now apply (IH2 B2) in H.
  - apply orb_true_iff in B as [B|B].
    + apply Nat.eqb_eq in B. subst m.
      apply run_keeps in H as [st1 [H _]].
      eexists. split; [exact H|]. apply bound_capture_same.
    + apply (IH B) in H as [st1 [H B1]].
      eexists. split; [exact H|]. now apply bound_capture.
Qed.

Lemma search_from_binds (f : flags) (n : nat) (r : regex) :
  binds n r = true ->
  forall s p m s', search_from f r p s = Some (m, s') -> lookup n (m_caps m) <> None.
Proof.
  intro B. induction s as [|c tl IH]; intros p m s' H; cbn [search_from] in H.
  - destruct (run f r _ Some) as [st|] eqn:R; [|discriminate].
    injection H as <- _.
    apply (run_binds f n r B) in R as [st' [E Bd]]. now injection E as <-.
  - destruct (run f r _ Some) as [st|] eqn:R.
    + injection H as <- _.
      apply (run_binds f n r B) in R as [st' [E Bd]]. now injection E as <-.
    + now apply IH in H.
Qed.

Lemma finditer_from_binds (f : flags) (n : nat) (r : regex) :
  binds n r = true ->
  forall fuel p s m, In m (finditer_from fuel f r p s) -> lookup n (m_caps m) <> None.
Proof.
  intro B. induction fuel as [|fuel IH]; intros p s m H; cbn [finditer_from] in H.
  - destruct H.
  - destruct (search_from f r p s) as [[m0 s']|] eqn:S; [|destruct H].
    destruct H as [<- | H].
    + now apply (search_from_binds f n r B) in S.
    + destruct (m_start m0 <? m_end m0).
      * now apply IH in H.
      * destruct s' as [|c tl]; [destruct H | now apply IH in H].
Qed.

(** Every match that [finditer] returns for a pattern that binds group
    [n] has that group. *)
Lemma finditer_group (f : flags) (n : nat) (r : regex) (text : string) (m : match_) :
  binds n r = true -> In m (finditer f r text) ->
  exists g, group text m n = Some g.
Proof.
  intros B H. apply (finditer_from_binds f n r B) in H.
  unfold group. destruct (lookup n (m_caps m)) as [[a b]|]; [eauto | congruence].
Qed.

(** [finditer] never has to step over an empty match of such a pattern. *)
Lemma finditer_nonempty (f : flags) (r : regex) (text : string) (m : match_) :
  consumes r = true -> In m (finditer f r text) -> m_start m < m_end m.
Proof.
  intro C. unfold finditer.
  assert (G : forall fuel p s,
             In m (finditer_from fuel f r p s) -> m_start m < m_end m).
  { induction fuel as [|fuel IH]; intros p s M; cbn [finditer_from] in M;
      [destruct M|].
    destruct (search_from f r p s) as [[m0 s']|] eqn:S; [|destruct M].
    destruct M as [<- | H].
    - now apply (search_from_nonempty f r C) in S.
    - destruct (m_start m0 <? m_end m0).
      + now apply IH in H.
      + destruct s' as [|c tl]; [destruct H | now apply IH in H]. }
  apply G.
Qed.

(** The next character of the subject, if any. *)
Definition next_char (s : string) : option ascii :=
  match s with
  | String c _ => Some c
  | EmptyString => None
  end.

(** [r] cannot match where the subject continues with [c] ([None]: where
    it ends): a sufficient test on the shape of [r]. *)
Fixpoint refuses (f : flags) (r : regex) (c : option ascii) : bool :=
  match r with
  | One items =>
      match c with
      | Some c => negb (existsb (fun a => atom_matches f a c) items)
      | None => true
      end
  | Cat r1 _ => refuses f r1 c
  | Alt r1 r2 => refuses f r1 c && refuses f r2 c
  | Grp _ r' | Ahead r' => refuses f r' c
  | _ => false
  end.

Lemma run_refuses (f : flags) (r : regex) :
  forall st k, refuses f r (next_char (rest st)) = true -> run f r st k = None.
Proof.
  induction r as [|items|r1 IH1 r2 IH2|r1 IH1 r2 IH2|greedy r IH|m r IH|r IH|];
    intros st k R; cbn [refuses] in R; try discriminate; cbn [run].
  - destruct (rest st) as [|c tl]; [reflexivity|]. cbn [next_char] in R.
    apply negb_true_iff in R. now rewrite R.
  - now apply IH1.
  - apply andb_true_iff in R as [R1 R2]. now rewrite IH1, IH2.
  - now apply IH.
  - now rewrite IH.
Qed.

(** All characters, to settle a property of characters by enumeration. *)
Definition all_chars : list ascii := map ascii_of_nat (seq 0 256).

Lemma in_all_chars (c : ascii) : In c all_chars.
Proof.
  unfold all_chars. rewrite <- (ascii_nat_embedding c).
  apply in_map, in_seq. pose proof (nat_ascii_bounded c). lia.
Qed.

(** A pattern that refuses whitespace and the end of the subject finds
    nothing in a text of whitespace. *)
Lemma search_from_blank (f : flags) (r : regex) :
  refuses f r None = true ->
  (forall c, Py.isspace c = true -> refuses f r (Some c) = true) ->
  forall s p, Py.blank s = true -> search_from f r p s = None.
Proof.
  intros RN RS. induction s as [|c tl IH]; intros p B; cbn [search_from].
  - now rewrite run_refuses.
  - cbn [Py.blank] in B. apply andb_true_iff in B as [Bc Btl].
    rewrite run_refuses by (cbn; now apply RS). now apply IH.
Qed.

Lemma finditer_blank (f : flags) (r : regex) (text : string) :
  refuses f r None = true ->
  (forall c, Py.isspace c = true -> refuses f r (Some c) = true) ->
  Py.blank text = true -> finditer f r text = [].
Proof.
  intros RN RS B. unfold finditer. cbn [finditer_from].
  now rewrite (search_from_blank f r RN RS).
Qed.

End ReFacts.

(* ================================================================== *)
(** ** The section extractor *)

Module SectionsFacts.

Import Re Relevance Sections.

Lemma collect_defined {A B} (step : A -> option (list B)) (xs : list A) :
  (forall x, In x xs -> exists ys, step x = Some ys) ->
  exists zs, collect step xs = Some zs.
Proof.
  induction xs as [|x tl IH]; intro H; cbn [collect]; [eauto|].
  destruct (H x (or_introl eq_refl)) as [ys ->].
  destruct IH as [zs ->]; [intros y Hy; apply H; now right | eauto].
Qed.

Lemma section_patterns_bind :
  forall pattern, In pattern section_patterns ->
                  ReFacts.binds 1 pattern = true /\ ReFacts.binds 2 pattern = true.
Proof.
  assert (F : forallb (fun p => ReFacts.binds 1 p && ReFacts.binds 2 p) section_patterns
              = true) by reflexivity.
  intros pattern H. rewrite forallb_forall in F.
  apply andb_true_iff. now apply F.
Qed.

(** None of the patterns of the source matches the empty string. *)
Lemma source_patterns_consume :
  forallb ReFacts.consumes (Analyzer.section_number :: section_patterns) = true.
Proof. reflexivity. Qed.

(** The pattern phase never raises: both groups take part in every match
    of every pattern. *)
Lemma pattern_sections_defined (document_text : string) :
  exists sections, pattern_sections document_text = Some sections.
Proof.
  unfold pattern_sections. apply collect_defined. intros pattern P.
  apply collect_defined. intros m M.
  destruct (section_patterns_bind pattern P) as [B1 B2].
  destruct (ReFacts.finditer_group _ 1 _ _ _ B1 M) as [g1 G1].
  destruct (ReFacts.finditer_group _ 2 _ _ _ B2 M) as [g2 G2].
  unfold section_of_match. rewrite G1, G2.
  destruct (2 <=? ngroups pattern); [|eauto].
  destruct (50 <? Py.len (Py.strip g2)); eauto.
Qed.

Lemma section_patterns_refuse_blank :
  forall pattern, In pattern section_patterns ->
    ReFacts.refuses extract_flags pattern None = true /\
    (forall c, Py.isspace c = true ->
               ReFacts.refuses extract_flags pattern (Some c) = true).
Proof.
  assert (F : forallb (fun p =>
                ReFacts.refuses extract_flags p None &&
                forallb (fun c => implb (Py.isspace c)
                                        (ReFacts.refuses extract_flags p (Some c)))
                        ReFacts.all_chars)
              section_patterns = true) by (vm_compute; reflexivity).
  intros pattern H. rewrite forallb_forall in F.
  apply F in H. apply andb_true_iff in H as [N S]. split; [exact N|].
  intros c W. rewrite forallb_forall in S.
  specialize (S c (ReFacts.in_all_chars c)). now rewrite W in S.
Qed.

(** No pattern finds anything in a text of whitespace. *)
Lemma pattern_sections_blank (document_text : string) :
  Py.blank document_text = true -> pattern_sections document_text = Some [].
Proof.
  intro B. unfold pattern_sections.
  assert (G : forall ps,
             (forall p, In p ps -> In p section_patterns) ->
             collect (fun pattern =>
                        collect (section_of_match pattern document_text)
                                (finditer extract_flags pattern document_text)) ps
             = Some []).
  { induction ps as [|p ps IH]; intro Sub; [reflexivity|].
    cbn [collect].
    destruct (section_patterns_refuse_blank p (Sub p (or_introl eq_refl))) as [N S].
    rewrite (ReFacts.finditer_blank _ _ _ N S B). cbn [collect].
    rewrite IH by (intros q Hq; apply Sub; now right). reflexivity. }
  apply G. auto.
Qed.

(** A text of whitespace, the empty text included, has no section. *)
Lemma extract_blank_document `{SentTokenizer} (document_text : string) :
  Py.blank document_text = true ->
  _extract_document_sections document_text = Some [].
Proof.
  intro B. unfold _extract_document_sections.
  now rewrite pattern_sections_blank, sent_tokenize_blank.
Qed.

(** The extractor never raises. *)
Lemma extract_defined `{SentTokenizer} (document_text : string) :
  exists sections, _extract_document_sections document_text = Some sections.
Proof.
  unfold _extract_document_sections.
  destruct (pattern_sections_defined document_text) as [found ->].
  destruct found; eauto.
Qed.

Section Chunks.

Variable sentences : list string.

Let total := List.length sentences.
Let chunk_size := Nat.max 5 (total / 10).
Let chunk (j : nat) := slice sentences (j * chunk_size) (j * chunk_size + chunk_size).









End Chunks.

(** C7, amended: for the empty document text the extractor returns no
    section at all: no pattern matches, the fallback runs on an empty
    sentence list and emits nothing. *)
Theorem extract_empty_document `{SentTokenizer} :
  _extract_document_sections "" = Some [].
Proof. now apply extract_blank_document. Qed.

(** C7 as stated fails: whatever the sentence tokenizer, the empty
    document does not give one section with empty content. *)
Lemma empty_document_no_degenerate_section :
  ~ (exists (tokenizer : SentTokenizer) (s : section),
       @_extract_document_sections tokenizer "" = Some [s] /\
       content s = ""%string).
Proof.
  intros [tokenizer [s [E _]]].
  rewrite extract_blank_document in E by reflexivity. discriminate E.
Qed.




End SectionsFacts.

(* ================================================================== *)
(** ** Occurrences of "section <number>" *)

Module MentionFacts.

Import Re.

(** [s] without the prefix [p], when it has it. *)
Fixpoint drop_prefix (p s : string) : option string :=
  match p, s with
  | EmptyString, _ => Some s
  | String a p', String b s' => if Ascii.eqb b a then drop_prefix p' s' else None
  | String _ _, EmptyString => None
  end.

(** [s] without its longest prefix of characters that satisfy [p]. *)
Fixpoint drop_while (p : ascii -> bool) (s : string) : string :=
  match s with
  | EmptyString => EmptyString
  | String c tl => if p c then drop_while p tl else s
  end.

Definition head_is (p : ascii -> bool) (s : string) : bool :=
  match s with
  | String c _ => p c
  | EmptyString => false
  end.

(** The text reads "section", then at least one whitespace character,
    then a digit. *)
Definition mention_here (s : string) : bool :=
  match drop_prefix "section" s with
  | Some r => head_is Py.isspace r && head_is Py.isdigit (drop_while Py.isspace r)
  | None => false
  end.

(** The number of places of the text where such a mention starts. *)
Fixpoint section_mentions (s : string) : nat :=
  (if mention_here s then 1 else 0) +
  match s with
  | EmptyString => 0
  | String _ tl => section_mentions tl
  end.




























End MentionFacts.

(* ================================================================== *)
(** ** Relevance scoring and the document index *)

Module AnalyzerFacts.

Import Relevance Analyzer.
Local Open Scope Q_scope.

(** The boost of a lower-cased comment: 0.10 for every distinct legal
    keyword it contains and 0.20 for every place where a mention of a
    numbered section starts. *)
Definition boost (comment_lower : string) : Q :=
  0.1 * Num.of_nat (IntentFacts.distinct_hits legal_keywords comment_lower)
  + 0.2 * Num.of_nat (MentionFacts.section_mentions comment_lower).

(** [v] is the entry at index [i] of [xs], no entry is larger and every
    earlier entry is smaller. *)
Definition first_largest_at (xs : list Q) (i : nat) (v : Q) : Prop :=
  nth_error xs i = Some v /\
  (forall j x, nth_error xs j = Some x -> x <= v) /\
  (forall j x, (j < i)%nat -> nth_error xs j = Some x -> x < v).






(** The legal list has 19 keywords, all different. *)
Lemma legal_keywords_distinct :
  List.length legal_keywords = 19%nat /\ NoDup legal_keywords.
Proof.
  split; [reflexivity|].
  apply (NoDup_count_occ' string_dec). intros k H.
  repeat (destruct H as [<- | H]; [vm_compute; reflexivity|]). destruct H.
Qed.

(** The scan keeps the first index of a largest entry seen so far. *)
Lemma argmax_from_scan (xs seen : list Q) (best : Q) (best_idx : nat) :
  first_largest_at seen best_idx best ->
  exists v,
    first_largest_at (seen ++ xs) (argmax_from best_idx best (List.length seen) xs) v.
Proof.
  revert seen best best_idx.
  induction xs as [|x tl IH]; intros seen best best_idx [Hi [Hall Hbefore]].
  - rewrite app_nil_r. exists best. repeat split; assumption.
  - cbn [argmax_from].
    replace (seen ++ x :: tl) with ((seen ++ [x]) ++ tl) by (now rewrite <- app_assoc).
    replace (S (List.length seen)) with (List.length (seen ++ [x]))
      by (rewrite length_app; simpl; lia).
    destruct (Num.ltb best x) eqn:C.
    + apply NumFacts.ltb_spec in C.
      apply IH. repeat split.
      * rewrite nth_error_app2 by lia. now rewrite Nat.sub_diag.
      * intros j y H. apply IntentFacts.nth_error_snoc in H as [[_ H] | [_ ->]].
        -- apply Hall in H. lra.
        -- apply Qle_refl.
      * intros j y L H. apply IntentFacts.nth_error_snoc in H as [[_ H] | [-> _]]; [|lia].
        apply Hall in H. lra.
    + apply NumFacts.ltb_false in C.
      assert (Li : (best_idx < List.length seen)%nat)
        by (apply nth_error_Some; congruence).
      apply IH. repeat split.
      * now rewrite nth_error_app1.
      * intros j y H. apply IntentFacts.nth_error_snoc in H as [[_ H] | [_ ->]].
        -- now apply Hall in H.
        -- exact C.
      * intros j y L H. apply IntentFacts.nth_error_snoc in H as [[_ H] | [-> _]]; [|lia].
        now apply (Hbefore j).
Qed.

Lemma argmax_first_largest (xs : list Q) :
  xs <> [] -> exists i v, argmax xs = Some i /\ first_largest_at xs i v.
Proof.
  destruct xs as [|x tl]; [congruence | intros _].
  destruct (argmax_from_scan tl [x] x 0) as [v F].
  - repeat split.
    + intros [|[|j]] y H; simpl in H; try discriminate.
      injection H as <-. apply Qle_refl.
    + intros j y L. lia.
  - eexists. exists v. split; [reflexivity | exact F].
Qed.

Section WithLibraries.

Context `{SentTokenizer} `{Tfidf}.

(** What a call of [set_main_document] that returns has done. *)
Lemma set_main_document_returned (self self' : state) (document_text title_ : string) :
  set_main_document self document_text title_ = (self', Returned) ->
  exists sections,
    Sections._extract_document_sections document_text = Some sections /\
    main_document self' = Some document_text /\
    document_title self' = Some title_ /\
    document_sections self' = Some sections /\
    ((sections = [] /\
      document_embeddings self' = document_embeddings self /\
      tfidf_vectorizer self' = tfidf_vectorizer self)
     \/
     (sections <> [] /\
      exists m,
        fit_transform (tfidf_vectorizer self) (map content sections)
          = (tfidf_vectorizer self', Some m) /\
        document_embeddings self' = Some m)).
Proof.
  unfold set_main_document.
  destruct (Sections._extract_document_sections document_text) as [sections|];
    [|discriminate].
  destruct sections as [|s0 tl].
  - intros [= <-]. exists []. cbn. repeat split. left. repeat split.
  - cbn [main_document document_title document_sections document_embeddings
         tfidf_vectorizer].
    destruct (fit_transform (tfidf_vectorizer self) (map content (s0 :: tl)))
      as [v [m|]] eqn:F; [|discriminate].
    intros [= <-]. exists (s0 :: tl). cbn. repeat split.
    right. split; [discriminate|]. exists m. split; [exact F | reflexivity].
Qed.

(** What a call of [set_main_document] that raises has done: the text and
    its sections are stored, next to the matrix of the document loaded
    before. *)
Lemma set_main_document_raised (self self' : state) (document_text title_ : string) :
  set_main_document self document_text title_ = (self', Raised) ->
  exists sections,
    Sections._extract_document_sections document_text = Some sections /\
    sections <> [] /\
    snd (fit_transform (tfidf_vectorizer self) (map content sections)) = None /\
    main_document self' = Some document_text /\
    document_sections self' = Some sections /\
    document_embeddings self' = document_embeddings self.
Proof.
  unfold set_main_document.
  destruct (SectionsFacts.extract_defined document_text) as [sections ->].
  destruct sections as [|s0 tl]; [discriminate|].
  cbn [main_document document_title document_sections document_embeddings
       tfidf_vectorizer].
  destruct (fit_transform (tfidf_vectorizer self) (map content (s0 :: tl)))
    as [v [m|]] eqn:F; [discriminate|].
  intros [= <-]. exists (s0 :: tl).
  split; [reflexivity|]. split; [discriminate|]. split; [now rewrite F|].
  cbn. repeat split.
Qed.

(** Without sections, or without a matrix, every query is answered
    with the result for an unknown document. *)
Lemma analyze_without_index (self : state) (comment : string) :
  document_embeddings self = None \/
  document_sections self = None \/
  document_sections self = Some [] ->
  analyze_comment_relevance self comment = Some unknown_result.
Proof.
  unfold analyze_comment_relevance.
  intros [E | [E | E]]; rewrite E; [reflexivity | |];
    destruct (document_embeddings self); reflexivity.
Qed.

(** C5: with no document loaded (no matrix stored) relevance scoring
    returns, without raising, a score of exactly 0, no matched section
    and the category "Unknown", whatever the comment says. *)
Theorem relevance_without_document (self : state) (comment : string) :
  document_embeddings self = None ->
  exists res,
    analyze_comment_relevance self comment = Some res /\
    relevance_score res = 0 /\
    most_relevant_section res = None /\
    relevance_category res = "Unknown"%string.
Proof.
  intro E. exists unknown_result.
  split; [apply analyze_without_index; now left|].
  repeat split.
Qed.

(** C6, amended: after every [set_main_document] call that returns, the
    stored document and sections are those of the newly loaded text.  If
    it has at least one section, the vectorizer has been refitted on
    exactly these sections and their matrix is stored.  If it has none,
    the vectorizer and the matrix fitted on the previously loaded
    document are retained, and every relevance query returns the
    "Unknown" zero-score result. *)
Theorem set_main_document_index
    (self self' : state) (document_text title_ : string) :
  set_main_document self document_text title_ = (self', Returned) ->
  exists sections,
    Sections._extract_document_sections document_text = Some sections /\
    main_document self' = Some document_text /\
    document_sections self' = Some sections /\
    (sections <> [] ->
     exists m,
       fit_transform (tfidf_vectorizer self) (map content sections)
         = (tfidf_vectorizer self', Some m) /\
       document_embeddings self' = Some m) /\
    (sections = [] ->
     document_embeddings self' = document_embeddings self /\
     tfidf_vectorizer self' = tfidf_vectorizer self /\
     forall comment,
       analyze_comment_relevance self' comment = Some unknown_result).
Proof.
  intro R. apply set_main_document_returned in R as [sections [E [D [_ [S C]]]]].
  exists sections. repeat split; try assumption.
  - intro N. destruct C as [[C _] | [_ C]]; [contradiction | exact C].
  - destruct C as [[_ [C _]] | [C _]]; [exact C | contradiction].
  - destruct C as [[_ [_ C]] | [C _]]; [exact C | contradiction].
  - intro comment. apply analyze_without_index. right. right.
    rewrite S. now f_equal.
Qed.


End WithLibraries.

End AnalyzerFacts.

(* ================================================================== *)
(** ** The analyzer on concrete documents, with the stand-in libraries *)

Module AnalyzerExamples.

Import Relevance Analyzer AnalyzerFacts StandinFacts.
Local Open Scope Q_scope.

Definition newline : string := String "010"%char EmptyString.

(** A text with two numbered clauses. *)
Definition act : string :=
  ("Section 1: The company shall appoint a director within thirty days of incorporation of it."
   ++ newline ++
   "Section 2. Penalty for non compliance shall be a fine of one lakh rupees payable to the board."
   ++ newline)%string.

(** The analyzer after loading [act], and after loading a blank text on
    top of it. *)
Definition loaded : state := fst (set_main_document init act "Act").
Definition reloaded : state := fst (set_main_document loaded " " "Blank").

Lemma returned_pair (run : state * outcome) :
  snd run = Returned -> run = (fst run, Returned).
Proof. destruct run as [self o]. cbn. now intros ->. Qed.

Lemma loaded_returned : set_main_document init act "Act" = (loaded, Returned).
Proof. apply returned_pair. vm_compute. reflexivity. Qed.

Lemma reloaded_returned : set_main_document loaded " " "Blank" = (reloaded, Returned).
Proof. apply returned_pair. vm_compute. reflexivity. Qed.

(** C5 on a fresh analyzer and a comment that would earn a boost. *)
Lemma relevance_without_document_witness :
  exists res,
    analyze_comment_relevance init "I object to section 5 of the act" = Some res /\
    relevance_score res = 0 /\
    most_relevant_section res = None /\
    relevance_category res = "Unknown"%string.
Proof.
  apply (relevance_without_document init "I object to section 5 of the act").
  reflexivity.
Defined.


(** The index is built against a document: the matrix stored is the one
    that fitting the vectorizer on the document's sections returns. *)
Definition built_against (self : state) (document_text : string) : Prop :=
  exists sections v m,
    Sections._extract_document_sections document_text = Some sections /\
    fit_transform v (map content sections) = (tfidf_vectorizer self, Some m) /\
    document_embeddings self = Some m.

(** C6 as stated fails: after a blank text is loaded on top of [act], the
    matrix fitted on [act] is still stored; the index is neither unbuilt
    nor built against the new text. *)
Lemma stale_index_after_blank_document :
  ~ (forall (self self' : state) (document_text title_ : string) (o : outcome),
       set_main_document self document_text title_ = (self', o) ->
       document_embeddings self' = None \/ built_against self' document_text).
Proof.
  intro H.
  destruct (H loaded reloaded " "%string "Blank"%string Returned reloaded_returned)
    as [U | [sections [v [m [E [F _]]]]]].
  - vm_compute in U. discriminate U.
  - vm_compute in E. injection E as <-.
    vm_compute in F. discriminate F.
Qed.

(** C6 on the two loads: the first builds the index on the two clauses
    found twice over by the patterns, the second keeps that matrix and
    answers every query with the unknown result. *)
Lemma set_main_document_index_witness :
  (exists sections m,
     document_sections loaded = Some sections /\
     List.length sections = 4%nat /\
     document_embeddings loaded = Some m) /\
  (document_sections reloaded = Some [] /\
   document_embeddings reloaded = document_embeddings loaded /\
   forall comment, analyze_comment_relevance reloaded comment = Some unknown_result).
Proof.
  split.
  - destruct (set_main_document_index init loaded act "Act" loaded_returned)
      as [sections [E [_ [S [B _]]]]].
    assert (L : List.length sections = 4%nat).
    { vm_compute in E. injection E as <-. reflexivity. }
    destruct B as [m [_ M]]; [intros ->; discriminate L|].
    exists sections, m. split; [exact S | split; [exact L | exact M]].
  - destruct (set_main_document_index loaded reloaded " " "Blank" reloaded_returned)
      as [sections [E [_ [S [_ K]]]]].
    assert (N : sections = []).
    { vm_compute in E. now injection E as <-. }
    destruct (K N) as [M [_ Q]]. subst sections.
    split; [exact S | split; [exact M | exact Q]].
Defined.

End AnalyzerExamples.

(* ================================================================== *)
(** ** The analysis of a comment and of a batch *)

Module PipelineFacts.

Import Relevance Analyzer Pipeline.
Local Open Scope Q_scope.

(** The six label names the normalization knows, and the three it maps to. *)
Definition known_labels : list string :=
  ["LABEL_2"; "POSITIVE"; "LABEL_0"; "NEGATIVE"; "LABEL_1"; "NEUTRAL"]%string.

Definition normal_labels : list string :=
  ["POSITIVE"; "NEGATIVE"; "NEUTRAL"]%string.

Lemma mem_In (x : string) (xs : list string) : Py.mem x xs = true <-> In x xs.
Proof.
  unfold Py.mem. rewrite existsb_exists. split.
  - intros [y [I E]]. apply String.eqb_eq in E. now subst.
  - intro I. exists x. split; [exact I | apply String.eqb_refl].
Qed.

Lemma normalize_label_cases (label : string) :
  (In label ["LABEL_2"; "POSITIVE"]%string /\ normalize_label label = "POSITIVE"%string) \/
  (In label ["LABEL_0"; "NEGATIVE"]%string /\ normalize_label label = "NEGATIVE"%string) \/
  (In label ["LABEL_1"; "NEUTRAL"]%string /\ normalize_label label = "NEUTRAL"%string) \/
  (~ In label known_labels /\ normalize_label label = label).
Proof.
  unfold normalize_label.
  destruct (Py.mem label ["LABEL_2"; "POSITIVE"]%string) eqn:A.
  { left. split; [now apply mem_In | reflexivity]. }
  destruct (Py.mem label ["LABEL_0"; "NEGATIVE"]%string) eqn:B.
  { right. left. split; [now apply mem_In | reflexivity]. }
  destruct (Py.mem label ["LABEL_1"; "NEUTRAL"]%string) eqn:C.
  { right. right. left. split; [now apply mem_In | reflexivity]. }
  right. right. right. split; [|reflexivity].
  intro I.
  assert (NA : ~ In label ["LABEL_2"; "POSITIVE"]%string)
    by (rewrite <- mem_In; congruence).
  assert (NB : ~ In label ["LABEL_0"; "NEGATIVE"]%string)
    by (rewrite <- mem_In; congruence).
  assert (NC : ~ In label ["LABEL_1"; "NEUTRAL"]%string)
    by (rewrite <- mem_In; congruence).
  cbn in I, NA, NB, NC. tauto.
Qed.

(** X1: the label normalization maps exactly the six known names onto
    POSITIVE, NEGATIVE and NEUTRAL, leaves every other label as it is, and
    normalizing twice is normalizing once. *)
Theorem normalize_label_rule (label : string) :
  (In (normalize_label label) normal_labels <-> In label known_labels) /\
  (~ In label known_labels -> normalize_label label = label) /\
  normalize_label (normalize_label label) = normalize_label label.
Proof.
  destruct (normalize_label_cases label) as [[I E] | [[I E] | [[I E] | [I E]]]];
    rewrite E.
  1-3: split; [|split]; [| intro N; exfalso; apply N | reflexivity];
    cbn in *; intuition (subst; auto).
  split; [|split]; [| auto | now rewrite E].
  split; [|tauto]. intro J. exfalso. apply I. cbn in *.
  intuition (subst; auto).
Qed.

(** The normalization on a raw model label and on a label it does not know. *)
Lemma normalize_label_rule_witness :
  normalize_label "LABEL_2" = "POSITIVE"%string /\
  normalize_label "mixed" = "mixed"%string.
Proof.
  split; [reflexivity|].
  apply (proj1 (proj2 (normalize_label_rule "mixed"))).
  cbn. intuition discriminate.
Defined.

(** The names [categorize] gives to a score above 0.3. *)
Definition relevant_categories : list string :=
  ["Highly Relevant"; "Moderately Relevant"; "Somewhat Relevant"]%string.

(** A relevance result is the one for an unknown document, or it names a
    section and carries the category of its score. *)
Lemma relevance_result_shape `{SentTokenizer} `{Tfidf}
    (self : state) (comment_ : string) (rel : Relevance.result) :
  analyze_comment_relevance self comment_ = Some rel ->
  rel = unknown_result \/
  (exists section, most_relevant_section rel = Some section) /\
  relevance_category rel = categorize (relevance_score rel).
Proof.
  unfold analyze_comment_relevance.
  destruct (document_embeddings self) as [m|]; [|intros [= <-]; now left].
  destruct (document_sections self) as [[|s0 tl]|]; try (intros [= <-]; now left).
  destruct (transform _ _) as [e|]; [|discriminate].
  destruct (similarity_row e m) as [sims|]; [|discriminate].
  destruct (argmax _) as [idx|]; [|discriminate].
  destruct (nth_error (map _ sims) idx) as [v|]; [|discriminate].
  destruct (nth_error (s0 :: tl) idx) as [sec|]; [|discriminate].
  intros [= <-]. right. cbn. split; [eauto | reflexivity].
Qed.

Lemma categorize_relevant (v : Q) :
  In (categorize v) relevant_categories <-> 0.3 < v.
Proof.
  unfold categorize, Num.gtb.
  destruct (Num.ltb 0.7 v) eqn:A;
    [apply NumFacts.ltb_spec in A | apply NumFacts.ltb_false in A].
  { cbn. split; [intros _; lra | auto]. }
  destruct (Num.ltb 0.5 v) eqn:B;
    [apply NumFacts.ltb_spec in B | apply NumFacts.ltb_false in B].
  { cbn. split; [intros _; lra | auto]. }
  destruct (Num.ltb 0.3 v) eqn:C;
    [apply NumFacts.ltb_spec in C | apply NumFacts.ltb_false in C].
  { cbn. split; [intros _; lra | auto]. }
  cbn. split; [intuition discriminate | intro; exfalso; lra].
Qed.

Lemma categorize_known (v : Q) : categorize v <> "Unknown"%string.
Proof.
  unfold categorize.
  destruct (Num.gtb v 0.7); [discriminate|].
  destruct (Num.gtb v 0.5); [discriminate|].
  destruct (Num.gtb v 0.3); discriminate.
Qed.

(** The count stored for [key], 0 when the key is absent. *)
Fixpoint count_of (key : string) (counts : list (string * nat)) : nat :=
  match counts with
  | [] => 0
  | (k, n) :: tl => if (k =? key)%string then n else count_of key tl
  end.

Lemma count_one_keys (key : string) (counts : list (string * nat)) :
  map fst (count_one key counts) =
  if Py.mem key (map fst counts) then map fst counts else map fst counts ++ [key].
Proof.
  induction counts as [|[k n] tl IH]; [reflexivity|].
  cbn [count_one map fst]. unfold Py.mem in *. cbn [existsb].
  rewrite (String.eqb_sym k key).
  destruct (key =? k)%string; cbn [orb map fst]; [reflexivity|].
  rewrite IH. now destruct (existsb _ (map fst tl)).
Qed.

Lemma count_one_count (key k : string) (counts : list (string * nat)) :
  count_of k (count_one key counts) =
  (count_of k counts + if (key =? k)%string then 1 else 0)%nat.
Proof.
  induction counts as [|[k' n] tl IH]; cbn [count_one count_of].
  - destruct (key =? k)%string; reflexivity.
  - destruct (String.eqb_spec k' key) as [->|N]; cbn [count_of].
    + destruct (key =? k)%string; lia.
    + destruct (String.eqb_spec k' k) as [->|N'].
      * destruct (String.eqb_spec key k); [congruence | lia].
      * exact IH.
Qed.

Lemma count_one_positive (key : string) (counts : list (string * nat)) :
  Forall (fun e => 1 <= snd e)%nat counts ->
  Forall (fun e => 1 <= snd e)%nat (count_one key counts).
Proof.
  induction counts as [|[k n] tl IH]; intro F; cbn [count_one].
  - repeat constructor.
  - inversion F as [|? ? F1 F2]; subst.
    destruct (k =? key)%string; constructor; cbn in *; auto; lia.
Qed.

Lemma count_one_sum (key : string) (counts : list (string * nat)) :
  list_sum (map snd (count_one key counts)) = S (list_sum (map snd counts)).
Proof.
  induction counts as [|[k n] tl IH]; [reflexivity|].
  cbn [count_one]. destruct (k =? key)%string; cbn [map snd list_sum fold_right].
  - reflexivity.
  - fold (list_sum (map snd (count_one key tl))). fold (list_sum (map snd tl)).
    rewrite IH. lia.
Qed.

(** What [Counter] holds: every key once, in the order of first
    occurrence, with the number of its occurrences. *)
Lemma Counter_spec (keys : list string) :
  NoDup (map fst (Counter keys)) /\
  (forall k, In k (map fst (Counter keys)) <-> In k keys) /\
  (forall k, count_of k (Counter keys) = count_occ string_dec keys k) /\
  Forall (fun e => 1 <= snd e)%nat (Counter keys) /\
  list_sum (map snd (Counter keys)) = List.length keys.
Proof.
  unfold Counter.
  assert (G : forall ks acc,
             NoDup (map fst acc) ->
             Forall (fun e => 1 <= snd e)%nat acc ->
             let out := fold_left (fun counts key => count_one key counts) ks acc in
             NoDup (map fst out) /\
             (forall k, In k (map fst out) <-> In k (map fst acc) \/ In k ks) /\
             (forall k, count_of k out
                        = (count_of k acc + count_occ string_dec ks k)%nat) /\
             Forall (fun e => 1 <= snd e)%nat out /\
             list_sum (map snd out)
             = (list_sum (map snd acc) + List.length ks)%nat).
  { induction ks as [|x ks IH]; intros acc ND P; cbn [fold_left].
    - cbn. repeat split; auto; tauto.
    - assert (ND' : NoDup (map fst (count_one x acc))).
      { rewrite count_one_keys. destruct (Py.mem x (map fst acc)) eqn:M; [exact ND|].
        apply NoDup_app; [exact ND | repeat constructor; intros [] |].
        intros y I [<- | []]. apply mem_In in I. congruence. }
      destruct (IH (count_one x acc) ND' (count_one_positive x acc P))
        as [A [B [C [D E]]]].
      split; [exact A|]. split; [|split; [|split; [exact D|]]].
      + intro k. rewrite B, count_one_keys.
        destruct (Py.mem x (map fst acc)) eqn:M.
        * apply mem_In in M. cbn. intuition (subst; auto).
        * rewrite in_app_iff. cbn. intuition (subst; auto).
      + intro k. rewrite C, count_one_count. cbn [count_occ].
        destruct (string_dec x k) as [->|N].
        * rewrite String.eqb_refl. lia.
        * apply String.eqb_neq in N. rewrite N. lia.
      + rewrite E, count_one_sum. cbn [List.length]. lia. }
  destruct (G keys [] (NoDup_nil _) (Forall_nil _)) as [A [B [C [D E]]]].
  split; [exact A|]. split; [|split; [exact C | split; [exact D | exact E]]].
  intro k. rewrite B. cbn. tauto.
Qed.

Lemma count_of_In (k : string) (n : nat) (counts : list (string * nat)) :
  NoDup (map fst counts) -> In (k, n) counts -> count_of k counts = n.
Proof.
  induction counts as [|[k' n'] tl IH]; intros ND I; [destruct I|].
  cbn [map fst] in ND. inversion ND as [|? ? NI ND']; subst.
  cbn [count_of]. destruct I as [[= -> ->] | I].
  - now rewrite String.eqb_refl.
  - destruct (String.eqb_spec k' k) as [->|N]; [|auto].
    exfalso. apply NI. now apply (in_map fst) in I.
Qed.

Section WithLibraries.

Context `{SentTokenizer} `{Tfidf} `{SentimentModel}.

(** What the analysis of a comment that returns is made of. *)
Lemma analysis_parts (self : state) (comment_ : string) (a : analysis) :
  analyze_document_aware_sentiment self comment_ = Some a ->
  exists raw,
    sentiment_pipeline comment_ = Some raw /\
    base_sentiment a =
      {| Adjust.label := normalize_label (Adjust.label raw);
         Adjust.score := Adjust.score raw |} /\
    analyze_comment_relevance self comment_ = Some (relevance a) /\
    Intent.classify_comment_type comment_ = Some (comment_type a) /\
    Adjust._adjust_sentiment_for_context (base_sentiment a) (relevance a) (comment_type a)
      = Some (adjusted_sentiment a) /\
    context a =
      {| is_relevant := Num.gtb (relevance_score (relevance a)) 0.3;
         target_section :=
           match most_relevant_section (relevance a) with
           | Some section => Some (title section)
           | None => None
           end;
         constructive_feedback := Intent.is_constructive (comment_type a) |}.
Proof.
  unfold analyze_document_aware_sentiment.
  destruct (sentiment_pipeline comment_) as [raw|]; [|discriminate].
  destruct (analyze_comment_relevance self comment_) as [rel|]; [|discriminate].
  destruct (Intent.classify_comment_type comment_) as [ty|]; [|discriminate].
  destruct (Adjust._adjust_sentiment_for_context _ rel ty) as [adj|] eqn:A;
    [|discriminate].
  intros [= <-]. exists raw. cbn. repeat split. exact A.
Qed.

(** X2: in every analysis result the flags of [document_context] agree with
    the relevance result: [is_relevant] holds exactly when the category is
    Highly, Moderately or Somewhat Relevant; a relevant comment always has a
    target section; and the target section is missing exactly when the
    category is Unknown. *)
Theorem document_context_agrees (self : state) (comment_ : string) (a : analysis) :
  analyze_document_aware_sentiment self comment_ = Some a ->
  (is_relevant (context a) = true <->
     In (relevance_category (relevance a)) relevant_categories) /\
  (is_relevant (context a) = true -> target_section (context a) <> None) /\
  (target_section (context a) = None <->
     relevance_category (relevance a) = "Unknown"%string).
Proof.
  intro E. apply analysis_parts in E as [raw [_ [_ [R [_ [_ C]]]]]].
  rewrite C. cbn [is_relevant target_section].
  apply relevance_result_shape in R as [U | [[sec S] K]].
  - rewrite U. cbn. repeat split; try discriminate; intuition discriminate.
  - rewrite S, K. unfold Num.gtb. rewrite NumFacts.ltb_spec.
    split; [symmetry; apply categorize_relevant|].
    split; [discriminate|].
    split; [discriminate|]. intro U. now apply categorize_known in U.
Qed.

(** The analyzer is fresh, or the last load of a document returned. *)
Definition ready (self : state) : Prop :=
  self = init \/
  exists prior document_text title_,
    set_main_document prior document_text title_ = (self, Returned).

Lemma ready_cases (self : state) :
  ready self ->
  document_embeddings self = None \/
  document_sections self = Some [] \/
  exists sections m v,
    sections <> [] /\
    document_sections self = Some sections /\
    document_embeddings self = Some m /\
    fit_transform v (map content sections) = (tfidf_vectorizer self, Some m).
Proof.
  intros [-> | [prior [doc [t R]]]]; [now left|].
  apply AnalyzerFacts.set_main_document_returned in R
    as [sections [_ [_ [_ [S [[-> _] | [N [m [F E]]]]]]]]].
  - right. now left.
  - right. right. exists sections, m, (tfidf_vectorizer prior). auto.
Qed.

Lemma relevance_returns (self : state) (comment_ : string) :
  ready self -> exists rel, analyze_comment_relevance self comment_ = Some rel.
Proof.
  intro R. apply ready_cases in R as [E | [E | [sections [m [v [N [S [E F]]]]]]]].
  - exists unknown_result. apply AnalyzerFacts.analyze_without_index. now left.
  - exists unknown_result. apply AnalyzerFacts.analyze_without_index. auto.
  - destruct (fit_transform_ok _ _ _ _ F comment_) as [e [sims [T [SR L]]]].
    rewrite length_map in L.
    unfold analyze_comment_relevance. rewrite E, S.
    destruct sections as [|s0 tl]; [congruence|].
    rewrite T, SR.
    set (boosted := map _ sims).
    assert (NB : boosted <> []).
    { unfold boosted. destruct sims; [discriminate L | discriminate]. }
    destruct (AnalyzerFacts.argmax_first_largest boosted NB) as [idx [x [A [Hi _]]]].
    rewrite A, Hi.
    assert (Li : (idx < List.length boosted)%nat)
      by (apply nth_error_Some; congruence).
    unfold boosted in Li. rewrite length_map, L in Li.
    apply nth_error_Some in Li.
    destruct (nth_error (s0 :: tl) idx) as [sec|]; [eauto | congruence].
Qed.

(** X3: on a fresh analyzer, and after every load that returned, a
    relevance query returns for every comment: it never raises. *)
Theorem relevance_never_raises (self : state) (comment_ : string) :
  ready self ->
  exists rel, analyze_comment_relevance self comment_ = Some rel.
Proof. apply relevance_returns. Qed.

Lemma classify_returns (comment_ : string) :
  exists ty, Intent.classify_comment_type comment_ = Some ty.
Proof.
  destruct (IntentFacts.classify_comment_type_rule comment_) as [ty [_ [E _]]].
  eauto.
Qed.

Lemma analysis_returns (self : state) (comment_ : string) :
  ready self ->
  ((exists a, analyze_document_aware_sentiment self comment_ = Some a) <->
   (exists raw, sentiment_pipeline comment_ = Some raw)).
Proof.
  intro R. split.
  - intros [a E]. apply analysis_parts in E as [raw [E _]]. eauto.
  - intros [raw E]. unfold analyze_document_aware_sentiment. rewrite E.
    destruct (relevance_returns self comment_ R) as [rel ->].
    destruct (classify_returns comment_) as [ty ->].
    rewrite AdjustFacts.adjust_returns. eauto.
Qed.

(** X4: on a ready analyzer the analysis of a comment returns exactly
    when the sentiment model returns on that comment; nothing else in the
    analysis can raise. *)
Theorem analysis_raises_only_with_model (self : state) (comment_ : string) :
  ready self ->
  ((exists a, analyze_document_aware_sentiment self comment_ = Some a) <->
   (exists raw, sentiment_pipeline comment_ = Some raw)).
Proof. apply analysis_returns. Qed.

Lemma batch_from_results (self : state) (comments : list string) :
  forall i results,
    batch_from self i comments = Some results ->
    List.length results = List.length comments /\
    forall j comment_,
      nth_error comments j = Some comment_ ->
      exists r,
        nth_error results j = Some r /\
        comment_id r = (i + j + 1)%nat /\
        comment r = comment_ /\
        analyze_document_aware_sentiment self comment_ = Some (result r).
Proof.
  induction comments as [|c tl IH]; intros i results E; cbn [batch_from] in E.
  - injection E as <-. split; [reflexivity|]. intros [|j] x; discriminate.
  - destruct (analyze_document_aware_sentiment self c) as [a|] eqn:A; [|discriminate].
    destruct (batch_from self (S i) tl) as [rs|] eqn:B; [|discriminate].
    injection E as <-. apply IH in B as [L N]. split; [cbn; now rewrite L|].
    intros [|j] x Hx; cbn in Hx.
    + injection Hx as <-. eexists. split; [reflexivity|]. cbn.
      split; [lia | auto].
    + apply N in Hx as [r [Hr [I K]]]. exists r. split; [exact Hr|].
      split; [lia | exact K].
Qed.

Lemma batch_from_raises (self : state) (comments : list string) :
  forall i,
    batch_from self i comments = None <->
    exists comment_,
      In comment_ comments /\ analyze_document_aware_sentiment self comment_ = None.
Proof.
  induction comments as [|c tl IH]; intro i; cbn [batch_from].
  - split; [discriminate | intros [x [[] _]]].
  - destruct (analyze_document_aware_sentiment self c) as [a|] eqn:A.
    + destruct (batch_from self (S i) tl) as [rs|] eqn:B.
      * split; [discriminate|]. intros [x [[<- | I] E]]; [congruence|].
        assert (N : batch_from self (S i) tl = None) by (apply IH; eauto).
        congruence.
      * split; [intros _ | reflexivity].
        apply IH in B as [x [I E]]. exists x. split; [now right | exact E].
    + split; [intros _ | reflexivity]. exists c. split; [now left | exact A].
Qed.

(** X5: a batch that returns has one result per comment, in the order of
    the comments: the result at position j (from 0) carries [comment_id]
    j + 1, the j-th comment itself, and the analysis of that comment. *)
Theorem batch_keeps_order (self : state) (comments : list string)
    (results : list batch_result) :
  analyze_batch_document_aware self comments = Some results ->
  List.length results = List.length comments /\
  forall j comment_,
    nth_error comments j = Some comment_ ->
    exists r,
      nth_error results j = Some r /\
      comment_id r = (j + 1)%nat /\
      comment r = comment_ /\
      analyze_document_aware_sentiment self comment_ = Some (result r).
Proof.
  intro E. apply batch_from_results in E as [L N]. split; [exact L|].
  intros j c Hc. apply N in Hc as [r [Hr [I K]]]. exists r. auto.
Qed.

(** X6: the batch has no handler around the analysis of one comment: on a
    ready analyzer it raises exactly when the sentiment model raises on one
    of the comments, and then no result at all is returned. *)
Theorem batch_raises_with_one_comment (self : state) (comments : list string) :
  ready self ->
  (analyze_batch_document_aware self comments = None <->
   exists comment_, In comment_ comments /\ sentiment_pipeline comment_ = None).
Proof.
  intro R. unfold analyze_batch_document_aware. rewrite batch_from_raises.
  split; intros [c [I E]]; exists c; split; try exact I.
  - destruct (sentiment_pipeline c) as [raw|] eqn:P; [|reflexivity].
    assert (X : exists a, analyze_document_aware_sentiment self c = Some a)
      by (apply analysis_returns; eauto).
    destruct X as [a X]. congruence.
  - destruct (analyze_document_aware_sentiment self c) as [a|] eqn:A; [|reflexivity].
    assert (X : exists raw, sentiment_pipeline c = Some raw)
      by (apply (analysis_returns self c R); eauto).
    destruct X as [raw X]. congruence.
Qed.

End WithLibraries.

End PipelineFacts.
